(** * catbox-api: the upload relay worker of [api/index.js]

    A shallow embedding of the Cloudflare worker in [api/index.js] and the
    properties of its router and of its three upload handlers.

    Conventions of the embedding.
    - A JavaScript string is a [string]; each [ascii] stands for one code
      unit (the model keeps the code units below 256).
    - A JavaScript number is a [Number]: a rational or [NaN].  Every number
      the worker computes is a byte count, a status code or a byte count
      divided by [2^20]; a division of a double by a power of two only moves
      the exponent, so these quotients are exact and the rational is the
      value of the double.
    - [await]ed host operations (the request body readers, [fetch], the body
      readers of a fetched response) are answers of a [World]; every
      outbound [fetch] is appended to a trace together with its outcome.
    - The body of a [Response] is the value handed to [JSON.stringify]
      ([None] for the [null] body). *)

From Stdlib Require Import String Ascii List Bool NArith ZArith QArith Qabs Lia.
From Stdlib Require Import DecimalString DecimalN DecimalFacts.
Import ListNotations.

Set Warnings "-register-all".

Local Open Scope string_scope.
Local Open Scope N_scope.

(* ================================================================== *)
(** ** Strings *)

Module JSString.

(** [WhiteSpace] and [LineTerminator] code units below 256: TAB, LF, VT,
    FF, CR, SP and NBSP. *)
Definition is_white_space (c : ascii) : bool :=
  let n := N_of_ascii c in
  ((9 <=? n) && (n <=? 13)) || (n =? 32) || (n =? 160).

Fixpoint trimStart (s : string) : string :=
  match s with
  | EmptyString => EmptyString
  | String c s' => if is_white_space c then trimStart s' else s
  end.

Fixpoint trimEnd (s : string) : string :=
  match s with
  | EmptyString => EmptyString
  | String c s' =>
      match trimEnd s' with
      | EmptyString => if is_white_space c then EmptyString
                       else String c EmptyString
      | t => String c t
      end
  end.

(** [String.prototype.trim] *)
Definition trim (s : string) : string := trimEnd (trimStart s).

(** [String.prototype.startsWith] *)
Definition startsWith (s searchString : string) : bool :=
  String.prefix searchString s.

(** [s.split('/').pop()]: what follows the last ['/'] of [s], all of [s]
    when it has none. *)
Fixpoint split_pop_aux (s acc : string) : string :=
  match s with
  | EmptyString => acc
  | String c s' =>
      if Ascii.eqb c "/"%char then split_pop_aux s' EmptyString
      else split_pop_aux s' (acc ++ String c EmptyString)
  end.

Definition split_slash_pop (s : string) : string :=
  split_pop_aux s EmptyString.

Definition is_empty (s : string) : bool :=
  match s with EmptyString => true | _ => false end.

(** Decimal numeral of a natural number, as in a template literal. *)
Definition of_N (n : N) : string :=
  NilZero.string_of_uint (N.to_uint n).

End JSString.

(* ================================================================== *)
(** ** Numbers *)

Inductive Number : Type :=
| Finite (q : Q)
| NaN.

Module JSNumber.

Definition of_N (n : N) : Number := Finite (inject_Z (Z.of_N n)).

(** [x / d] for a positive literal [d]. *)
Definition div_pos (x : Number) (d : positive) : Number :=
  match x with
  | Finite q => Finite (q / inject_Z (Z.pos d))
  | NaN => NaN
  end.

(** [x > y]; a comparison with [NaN] is false. *)
Definition gt (x y : Number) : bool :=
  match x, y with
  | Finite a, Finite b => negb (Qle_bool a b)
  | _, _ => false
  end.

Definition is_zero (x : Number) : bool :=
  match x with
  | Finite q => Qeq_bool q 0
  | NaN => false
  end.

(** The integer [n] for which [n / 100 - q] is closest to zero, the larger
    one of two ([q >= 0]). *)
Definition round_hundredths (q : Q) : N :=
  Z.to_N ((2 * 100 * Qnum q + Z.pos (Qden q)) / (2 * Z.pos (Qden q))).

Definition digit_char (d : N) : ascii := ascii_of_N (48 + d).

(** [x.toFixed(2)], for [|x| < 10^21] where it prints plain decimal
    notation: the sign, the integer part, a point and two digits. *)
Definition toFixed2 (x : Number) : string :=
  match x with
  | NaN => "NaN"
  | Finite q =>
      let n := round_hundredths (Qabs q) in
      let sign := if Qle_bool 0 q then "" else "-" in
      sign ++ JSString.of_N (n / 100) ++ "."
           ++ String (digit_char ((n mod 100) / 10))
                (String (digit_char (n mod 10)) EmptyString)
  end.

Definition is_digit (c : ascii) : bool :=
  let n := N_of_ascii c in (48 <=? n) && (n <=? 57).

Definition digit_value (c : ascii) : N := N_of_ascii c - 48.

(** The longest prefix of decimal digits, and what follows it. *)
Fixpoint take_digits (s : string) : string * string :=
  match s with
  | String c s' =>
      if is_digit c then
        let (ds, rest) := take_digits s' in (String c ds, rest)
      else (EmptyString, s)
  | EmptyString => (EmptyString, EmptyString)
  end.

(** The number a string of decimal digits denotes. *)
Definition digits_value (ds : string) : N :=
  match NilZero.uint_of_string ds with
  | Some d => N.of_uint d
  | None => 0
  end.

(** [parseFloat] on plain decimal notation: optional leading white space
    and sign, digits, optionally a point and digits; [NaN] when no digit
    is found.  (Exponents and [Infinity] do not occur in what [toFixed]
    prints for the sizes at hand.)  The value keeps the scale of the
    fraction read: ["4.77"] is [477 # 100]. *)
Definition parse_unsigned (s : string) : option Q :=
  let (int_digits, rest) := take_digits s in
  let frac_digits :=
    match rest with
    | String c rest' =>
        if Ascii.eqb c "."%char then fst (take_digits rest')
        else EmptyString
    | EmptyString => EmptyString
    end in
  match int_digits, frac_digits with
  | EmptyString, EmptyString => None
  | _, EmptyString => Some (inject_Z (Z.of_N (digits_value int_digits)))
  | _, _ =>
      let scale := Pos.pow 10 (Pos.of_nat (String.length frac_digits)) in
      Some (Z.of_N (digits_value int_digits * Npos scale
                    + digits_value frac_digits) # scale)
  end.

Definition unsigned_or_NaN (s : string) : Number :=
  match parse_unsigned s with
  | Some q => Finite q
  | None => NaN
  end.

Definition parseFloat (s : string) : Number :=
  match JSString.trimStart s with
  | String c s' =>
      if Ascii.eqb c "-"%char then
        match parse_unsigned s' with
        | Some q => Finite (- q)
        | None => NaN
        end
      else if Ascii.eqb c "+"%char then unsigned_or_NaN s'
      else unsigned_or_NaN (String c s')
  | EmptyString => NaN
  end.

End JSNumber.

(* ================================================================== *)
(** ** Values, files, forms *)

(** A [Blob]/[File] as far as the worker looks at it: the contents are never
    read, only forwarded. *)
Record File : Type := mkFile {
  file_name : string;
  file_size : N;
  file_type : string
}.

Record Blob : Type := mkBlob {
  blob_size : N
}.

Module JSFile.

(** A character of U+0020..U+007E. *)
Definition is_printable (c : ascii) : bool :=
  let n := N_of_ascii c in (32 <=? n) && (n <=? 126).

(** ASCII lower case of a character: [A]..[Z] move to [a]..[z]. *)
Definition lowercase_char (c : ascii) : ascii :=
  let n := N_of_ascii c in
  if (65 <=? n) && (n <=? 90) then ascii_of_N (n + 32) else c.

Fixpoint all_printable (s : string) : bool :=
  match s with
  | EmptyString => true
  | String c s' => is_printable c && all_printable s'
  end.

Fixpoint lowercase (s : string) : string :=
  match s with
  | EmptyString => EmptyString
  | String c s' => String (lowercase_char c) (lowercase s')
  end.

(** The [type] a [File] is constructed with: the empty string when the
    given type holds a character outside U+0020..U+007E, its ASCII lower
    case otherwise. *)
Definition normalize_type (t : string) : string :=
  if all_printable t then lowercase t else EmptyString.

End JSFile.

(** [new File([blob], name, { type })] *)
Definition new_File (blob : Blob) (name type : string) : File :=
  mkFile name (blob_size blob) (JSFile.normalize_type type).

Inductive JSValue : Type :=
| JUndefined
| JNull
| JBool (b : bool)
| JNum (n : Number)
| JStr (s : string)
| JArr (items : list JSValue)
| JObj (fields : list (string * JSValue))
| JFile (f : File).

(** An entry of a [FormData]: a string or a [File]. *)
Inductive FormDataEntryValue : Type :=
| FString (s : string)
| FFile (f : File).

Definition FormData : Type := list (string * FormDataEntryValue).

Module JS.

(** [ToBoolean] *)
Definition truthy (v : JSValue) : bool :=
  match v with
  | JUndefined | JNull => false
  | JBool b => b
  | JNum NaN => false
  | JNum x => negb (JSNumber.is_zero x)
  | JStr s => negb (JSString.is_empty s)
  | JArr _ | JObj _ | JFile _ => true
  end.

(** Own property of an object made by [JSON.parse]; [undefined] on
    anything without that property. *)
Fixpoint lookup (fields : list (string * JSValue)) (key : string)
  : JSValue :=
  match fields with
  | [] => JUndefined
  | (k, v) :: rest => if String.eqb k key then v else lookup rest key
  end.

Definition get (v : JSValue) (key : string) : JSValue :=
  match v with
  | JObj fields => lookup fields key
  | _ => JUndefined
  end.

(** A destructuring default [x = d]: taken when the property is
    [undefined]. *)
Definition default_to (v d : JSValue) : JSValue :=
  match v with
  | JUndefined => d
  | _ => v
  end.

Definition entry_truthy (e : option FormDataEntryValue) : bool :=
  match e with
  | None => false
  | Some (FString s) => negb (JSString.is_empty s)
  | Some (FFile _) => true
  end.

(** [formData.get(name)]: the first entry of that name, [null] if none. *)
Fixpoint FormData_get (fd : FormData) (name : string)
  : option FormDataEntryValue :=
  match fd with
  | [] => None
  | (k, e) :: rest =>
      if String.eqb k name then Some e else FormData_get rest name
  end.

(** [formData.get(name) || d] *)
Definition entry_or (e : option FormDataEntryValue)
    (d : FormDataEntryValue) : FormDataEntryValue :=
  match e with
  | Some t => if entry_truthy e then t else d
  | None => d
  end.

(** [file.size] then [ToNumber]: a string has no [size], and
    [undefined] converts to [NaN]. *)
Definition entry_size (e : FormDataEntryValue) : Number :=
  match e with
  | FFile f => JSNumber.of_N (file_size f)
  | FString _ => NaN
  end.

(** [file.name] *)
Definition entry_name (e : FormDataEntryValue) : JSValue :=
  match e with
  | FFile f => JStr (file_name f)
  | FString _ => JUndefined
  end.

Definition entry_value (e : FormDataEntryValue) : JSValue :=
  match e with
  | FFile f => JFile f
  | FString s => JStr s
  end.

(** [validTimes.includes(time)] *)
Definition includes (l : list string) (e : FormDataEntryValue) : bool :=
  match e with
  | FString s => existsb (String.eqb s) l
  | FFile _ => false
  end.

End JS.

(* ================================================================== *)
(** ** Host operations: completions, the network, the async monad *)

Record Error : Type := mkError { message : string }.

(** How an awaited operation completes: with a value, or by throwing. *)
Inductive Completion (A : Type) : Type :=
| Normal (a : A)
| Throw (e : Error).
Arguments Normal {A} a.
Arguments Throw {A} e.

(** An outbound [fetch(url, { method, body })]. *)
Record FetchCall : Type := mkCall {
  call_url : string;
  call_method : string;
  call_body : option FormData
}.

(** What a fetched response shows to the worker: [status], the
    [content-type] header, and what [blob()] and [text()] complete with. *)
Record FetchResponse : Type := mkFetchResponse {
  resp_status : N;
  resp_content_type : option string;
  resp_blob : Completion Blob;
  resp_text : Completion string
}.

(** [response.ok] *)
Definition resp_ok (r : FetchResponse) : bool :=
  (200 <=? resp_status r) && (resp_status r <=? 299).

Definition Trace : Type := list (FetchCall * Completion FetchResponse).

(** The environment of one request: the answer of the network to a call,
    given the calls made so far, and the clock. *)
Record World : Type := mkWorld {
  net : Trace -> FetchCall -> Completion FetchResponse;
  clock_iso : string
}.

Definition Async (A : Type) : Type := World -> Trace -> Completion A * Trace.

Module Async.

Definition ret {A} (a : A) : Async A := fun _ t => (Normal a, t).

Definition bind {A B} (m : Async A) (k : A -> Async B) : Async B :=
  fun w t =>
    match m w t with
    | (Normal a, t') => k a w t'
    | (Throw e, t') => (Throw e, t')
    end.

Definition throw {A} (e : Error) : Async A := fun _ t => (Throw e, t).

(** [try { m } catch (error) { handler error }] *)
Definition try_catch {A} (m : Async A) (handler : Error -> Async A)
  : Async A :=
  fun w t =>
    match m w t with
    | (Normal a, t') => (Normal a, t')
    | (Throw e, t') => handler e w t'
    end.

(** [await] of a host operation whose completion is given. *)
Definition await {A} (c : Completion A) : Async A := fun _ t => (c, t).

(** [await fetch(...)]: asks the world, records the call and its outcome. *)
Definition fetch (c : FetchCall) : Async FetchResponse :=
  fun w t => let r := net w t c in (r, (t ++ [(c, r)])%list).

(** [new Date().toISOString()] *)
Definition now_iso : Async string := fun w t => (Normal (clock_iso w), t).

Definition run {A} (m : Async A) (w : World) : Completion A * Trace :=
  m w [].

End Async.

Notation "x <- m ;; k" := (Async.bind m (fun x => k))
  (at level 61, m at next level, right associativity).

(* ================================================================== *)
(** ** Requests and responses *)

(** An inbound request.  [request.url] of a [Request] is an absolute URL by
    construction, so [new URL(request.url)] cannot throw; the record carries
    its [pathname].  [req_formData] and [req_json] are what
    [request.formData()] and [request.json()] complete with. *)
Record Request : Type := mkRequest {
  method : string;
  pathname : string;
  req_formData : Completion FormData;
  req_json : Completion JSValue
}.

Definition Headers : Type := list (string * string).

Record Response : Type := mkResponse {
  status : N;
  headers : Headers;
  body : option JSValue
}.

(** [new Response(JSON.stringify(v), { status, headers })] *)
Definition json_response (s : N) (h : Headers) (v : JSValue) : Response :=
  mkResponse s h (Some v).

(** [headers.get(name)] on the header table of a response. *)
Fixpoint header (h : Headers) (name : string) : option string :=
  match h with
  | [] => None
  | (k, v) :: rest => if String.eqb k name then Some v else header rest name
  end.

Definition catbox_api : string := "https://catbox.moe/user/api.php".
Definition litterbox_api : string :=
  "https://litterbox.catbox.moe/resources/internals/api.php".

Definition validTimes : list string := ["1h"; "12h"; "24h"; "72h"].

Definition method_not_allowed (h : Headers) : Response :=
  json_response 405 h (JObj [("error", JStr "Method not allowed")]).

Definition no_file_provided (h : Headers) : Response :=
  json_response 400 h (JObj [("error", JStr "No file provided")]).

Definition file_too_large (h : Headers) (fileSizeMB : Number) : Response :=
  json_response 413 h
    (JObj [("error", JStr "File too large");
           ("max_size", JStr "200MB");
           ("file_size", JStr (JSNumber.toFixed2 fileSizeMB ++ "MB"))]).

(** The [catch (error)] clause shared by the three upload handlers. *)
Definition upload_failed (h : Headers) (error : Error) : Response :=
  json_response 500 h
    (JObj [("success", JBool false);
           ("error", JStr "Upload failed");
           ("message", JStr (message error))]).

Definition status_error (r : FetchResponse) : Error :=
  mkError ("Upload failed with status " ++ JSString.of_N (resp_status r)).

(** [parseFloat(fileSizeMB.toFixed(2))] *)
Definition size_mb (fileSizeMB : Number) : JSValue :=
  JNum (JSNumber.parseFloat (JSNumber.toFixed2 fileSizeMB)).

Definition MiB : positive := 1024 * 1024.
Definition limit_MB : Number := JSNumber.of_N 200.

(* ================================================================== *)
(** ** The handlers that need no URL parsing *)

Definition handleRoot (headers : Headers) : Async Response :=
  Async.ret (json_response 200 headers
    (JObj [("message",
            JStr "Catbox Uploader API - Cloudflare Workers Edition");
           ("endpoints",
            JObj [("/upload", JStr "Upload file to catbox.moe (permanent)");
                  ("/upload/temp",
                   JStr "Upload file to litterbox (temporary)");
                  ("/upload/url", JStr "Upload file from URL");
                  ("/health", JStr "Check API status")]);
           ("limits",
            JObj [("max_file_size", JStr "200MB");
                  ("allowed_methods", JArr [JStr "POST"]);
                  ("temp_durations", JArr (map JStr validTimes))])])).

Definition handleHealth (headers : Headers) : Async Response :=
  timestamp <- Async.now_iso ;;
  Async.ret (json_response 200 headers
    (JObj [("status", JStr "ok");
           ("service", JStr "catbox-uploader-worker");
           ("timestamp", JStr timestamp)])).

Definition handleUpload (request : Request) (headers : Headers)
  : Async Response :=
  if negb (String.eqb (method request) "POST") then
    Async.ret (method_not_allowed headers)
  else
    Async.try_catch
      (formData <- Async.await (req_formData request) ;;
       match JS.FormData_get formData "file" with
       | Some file =>
           if negb (JS.entry_truthy (Some file)) then
             Async.ret (no_file_provided headers)
           else
             let fileSize := JS.entry_size file in
             let fileSizeMB := JSNumber.div_pos fileSize MiB in
             if JSNumber.gt fileSizeMB limit_MB then
               Async.ret (file_too_large headers fileSizeMB)
             else
               let uploadFormData :=
                 [("reqtype", FString "fileupload");
                  ("fileToUpload", file)] in
               response <- Async.fetch
                             (mkCall catbox_api "POST" (Some uploadFormData)) ;;
               if negb (resp_ok response) then
                 Async.throw (status_error response)
               else
                 result <- Async.await (resp_text response) ;;
                 if JSString.startsWith result "https://" then
                   Async.ret (json_response 200 headers
                     (JObj [("success", JBool true);
                            ("url", JStr (JSString.trim result));
                            ("filename", JS.entry_name file);
                            ("size_mb", size_mb fileSizeMB)]))
                 else
                   Async.throw (mkError "Invalid response from catbox")
       | None => Async.ret (no_file_provided headers)
       end)
      (fun error => Async.ret (upload_failed headers error)).

Definition handleUploadTemp (request : Request) (headers : Headers)
  : Async Response :=
  if negb (String.eqb (method request) "POST") then
    Async.ret (method_not_allowed headers)
  else
    Async.try_catch
      (formData <- Async.await (req_formData request) ;;
       let file := JS.FormData_get formData "file" in
       let time :=
         JS.entry_or (JS.FormData_get formData "time") (FString "1h") in
       match file with
       | Some file =>
           if negb (JS.entry_truthy (Some file)) then
             Async.ret (no_file_provided headers)
           else if negb (JS.includes validTimes time) then
             Async.ret (json_response 400 headers
               (JObj [("error", JStr "Invalid time parameter");
                      ("valid_times", JArr (map JStr validTimes));
                      ("provided", JS.entry_value time)]))
           else
             let fileSize := JS.entry_size file in
             let fileSizeMB := JSNumber.div_pos fileSize MiB in
             if JSNumber.gt fileSizeMB limit_MB then
               Async.ret (file_too_large headers fileSizeMB)
             else
               let uploadFormData :=
                 [("reqtype", FString "fileupload");
                  ("time", time);
                  ("fileToUpload", file)] in
               response <- Async.fetch
                             (mkCall litterbox_api "POST"
                                (Some uploadFormData)) ;;
               if negb (resp_ok response) then
                 Async.throw (status_error response)
               else
                 result <- Async.await (resp_text response) ;;
                 if JSString.startsWith result "https://" then
                   Async.ret (json_response 200 headers
                     (JObj [("success", JBool true);
                            ("url", JStr (JSString.trim result));
                            ("filename", JS.entry_name file);
                            ("size_mb", size_mb fileSizeMB);
                            ("expiration", JS.entry_value time);
                            ("temporary", JBool true)]))
                 else
                   Async.throw (mkError "Invalid response from litterbox")
       | None => Async.ret (no_file_provided headers)
       end)
      (fun error => Async.ret (upload_failed headers error)).

(* ================================================================== *)
(** ** The URL relay and the router *)

(** A parsed URL, as far as the worker reads it. *)
Record URL : Type := mkURL { url_pathname : string }.

Section Worker.

(** The host's URL parser behind [new URL(s)] ([None]: it throws), and its
    [Number::toString]. *)
Variable URL_parse : string -> option URL.
Variable Number_toString : Q -> string.

(** [ToString] on values made by [JSON.parse].  An array joins its
    elements with commas, [null] elements as empty strings.  An object
    prints as [[object Object]] unless it has an own [toString] property:
    that property is no function, [valueOf] returns the object, and the
    conversion throws a [TypeError]. *)
Fixpoint ToString (v : JSValue) : Completion string :=
  match v with
  | JUndefined => Normal "undefined"
  | JNull => Normal "null"
  | JBool true => Normal "true"
  | JBool false => Normal "false"
  | JNum NaN => Normal "NaN"
  | JNum (Finite q) => Normal (Number_toString q)
  | JStr s => Normal s
  | JArr items =>
      (fix join (l : list JSValue) : Completion string :=
         match l with
         | [] => Normal ""
         | x :: rest =>
             let first :=
               match x with
               | JUndefined | JNull => Normal ""
               | _ => ToString x
               end in
             match first, rest with
             | Throw e, _ => Throw e
             | Normal sx, [] => Normal sx
             | Normal sx, _ =>
                 match join rest with
                 | Normal sr => Normal (sx ++ "," ++ sr)
                 | Throw e => Throw e
                 end
             end
         end) items
  | JObj fields =>
      match JS.lookup fields "toString" with
      | JUndefined => Normal "[object Object]"
      | _ => Throw (mkError "Cannot convert object to primitive value")
      end
  | JFile _ => Normal "[object File]"
  end.

(** [new URL(url)]: converts its argument to a string, then parses. *)
Definition new_URL (url : JSValue) : Completion URL :=
  match ToString url with
  | Throw e => Throw e
  | Normal s =>
      match URL_parse s with
      | Some u => Normal u
      | None => Throw (mkError "Invalid URL")
      end
  end.

Definition handleUploadFromUrl (request : Request) (headers : Headers)
  : Async Response :=
  if negb (String.eqb (method request) "POST") then
    Async.ret (method_not_allowed headers)
  else
    Async.try_catch
      (body <- Async.await (req_json request) ;;
       (* const { url, temporary = false, time = '1h' } = body *)
       _ <- match body with
            | JNull | JUndefined =>
                Async.throw (mkError
                  "Cannot destructure property 'url' of 'body' as it is null.")
            | _ => Async.ret tt
            end ;;
       let url := JS.get body "url" in
       let temporary := JS.default_to (JS.get body "temporary")
                          (JBool false) in
       let time := JS.default_to (JS.get body "time") (JStr "1h") in
       if negb (JS.truthy url) then
         Async.ret (json_response 400 headers
                      (JObj [("error", JStr "No URL provided")]))
       else
         match new_URL url with
         | Throw _ =>
             Async.ret (json_response 400 headers
                          (JObj [("error", JStr "Invalid URL")]))
         | Normal _ =>
             href <- Async.await (ToString url) ;;
             fileResponse <- Async.fetch (mkCall href "GET" None) ;;
             if negb (resp_ok fileResponse) then
               Async.ret (json_response 400 headers
                 (JObj [("error", JStr "Failed to download file");
                        ("status",
                         JNum (JSNumber.of_N (resp_status fileResponse)))]))
             else
               blob <- Async.await (resp_blob fileResponse) ;;
               let contentType :=
                 match resp_content_type fileResponse with
                 | Some ct => if JSString.is_empty ct
                              then "application/octet-stream" else ct
                 | None => "application/octet-stream"
                 end in
               parsed <- Async.await (new_URL url) ;;
               let urlPath := url_pathname parsed in
               let filename :=
                 let last := JSString.split_slash_pop urlPath in
                 if JSString.is_empty last then "download" else last in
               let fileSizeMB :=
                 JSNumber.div_pos (JSNumber.of_N (blob_size blob)) MiB in
               if JSNumber.gt fileSizeMB limit_MB then
                 Async.ret (file_too_large headers fileSizeMB)
               else
                 timeField <-
                   (if JS.truthy temporary then
                      t <- Async.await (ToString time) ;;
                      Async.ret [("time", FString t)]
                    else Async.ret []) ;;
                 let file := new_File blob filename contentType in
                 let uploadFormData :=
                   ([("reqtype", FString "fileupload")] ++ timeField
                    ++ [("fileToUpload", FFile file)])%list in
                 let uploadUrl :=
                   if JS.truthy temporary then litterbox_api
                   else catbox_api in
                 response <- Async.fetch
                               (mkCall uploadUrl "POST"
                                  (Some uploadFormData)) ;;
                 if negb (resp_ok response) then
                   Async.throw (status_error response)
                 else
                   result <- Async.await (resp_text response) ;;
                   if JSString.startsWith result "https://" then
                     let responseData :=
                       ([("success", JBool true);
                         ("url", JStr (JSString.trim result));
                         ("original_url", url);
                         ("filename", JStr filename);
                         ("size_mb", size_mb fileSizeMB)]
                        ++ (if JS.truthy temporary then
                              [("expiration", time);
                               ("temporary", JBool true)]
                            else []))%list in
                     Async.ret (json_response 200 headers
                                  (JObj responseData))
                   else
                     Async.throw (mkError "Invalid response from catbox")
         end)
      (fun error => Async.ret (upload_failed headers error)).

Definition corsHeaders : Headers :=
  [("Access-Control-Allow-Origin", "*");
   ("Access-Control-Allow-Methods", "GET, POST, OPTIONS");
   ("Access-Control-Allow-Headers", "Content-Type");
   ("Content-Type", "application/json")].

Definition internal_server_error (error : Error) : Async Response :=
  Async.ret (json_response 500 corsHeaders
    (JObj [("error", JStr "Internal server error");
           ("message", JStr (message error))])).

(** The worker's [fetch(request, env, ctx)].  The three upload handlers
    are async and returned without [await]: a rejection of theirs would
    not reach the [catch] clause of the router, which guards the two
    synchronous handlers only. *)
Definition fetch (request : Request) : Async Response :=
  if String.eqb (method request) "OPTIONS" then
    Async.ret (mkResponse 200 corsHeaders None)
  else if String.eqb (pathname request) "/" then
    Async.try_catch (handleRoot corsHeaders) internal_server_error
  else if String.eqb (pathname request) "/health" then
    Async.try_catch (handleHealth corsHeaders) internal_server_error
  else if String.eqb (pathname request) "/upload" then
    handleUpload request corsHeaders
  else if String.eqb (pathname request) "/upload/temp" then
    handleUploadTemp request corsHeaders
  else if String.eqb (pathname request) "/upload/url" then
    handleUploadFromUrl request corsHeaders
  else
    Async.ret (json_response 404 corsHeaders
                 (JObj [("error", JStr "Not found")])).

End Worker.

(* ================================================================== *)
(** ** Observations on a run and the vocabulary of the properties *)

(** Every character of [s] is white space. *)
Fixpoint all_white_space (s : string) : bool :=
  match s with
  | EmptyString => true
  | String c s' => JSString.is_white_space c && all_white_space s'
  end.

(** [s] does not begin with white space. *)
Definition starts_clean (s : string) : bool :=
  match s with
  | EmptyString => true
  | String c _ => negb (JSString.is_white_space c)
  end.

(** [s] does not end with white space. *)
Fixpoint ends_clean (s : string) : bool :=
  match s with
  | EmptyString => true
  | String c s' =>
      match s' with
      | EmptyString => negb (JSString.is_white_space c)
      | _ => ends_clean s'
      end
  end.

(** [url] is [text] trimmed: [text] is [url] between two runs of white
    space, and [url] has white space at neither end. *)
Definition trimmed_of (text url : string) : Prop :=
  exists before after,
    text = (before ++ url ++ after)%string
    /\ all_white_space before = true
    /\ all_white_space after = true
    /\ starts_clean url = true
    /\ ends_clean url = true.

(** A character that is not an upper-case letter. *)
Definition not_upper (c : ascii) : bool :=
  let n := N_of_ascii c in negb ((65 <=? n) && (n <=? 90)).

(** [t] is a type as a constructed [File] carries it: characters of
    U+0020..U+007E only, none of them an upper-case letter (the empty
    string included). *)
Fixpoint normal_type (t : string) : bool :=
  match t with
  | EmptyString => true
  | String c t' => JSFile.is_printable c && not_upper c && normal_type t'
  end.

(** The upstream upload calls of a trace: the [POST]s.  (The only other call
    the worker makes is the [GET] of the source URL.) *)
Definition is_upload_call (c : FetchCall) : bool :=
  String.eqb (call_method c) "POST".

(** The upload calls recorded in a trace. *)
Definition upload_calls (t : Trace) : list FetchCall :=
  filter is_upload_call (map fst t).

(** The size in MiB as the specification words it: bytes divided by
    1,048,576. *)
Definition size_in_MiB (bytes : N) : Q :=
  inject_Z (Z.of_N bytes) / inject_Z 1048576.

(** Every character of [s] is a decimal digit. *)
Fixpoint all_digits (s : string) : bool :=
  match s with
  | EmptyString => true
  | String c s' => JSNumber.is_digit c && all_digits s'
  end.

(** The two-character string of the digits [a] and [b]. *)
Definition two_digits (a b : N) : string :=
  String (JSNumber.digit_char a) (String (JSNumber.digit_char b) EmptyString).

(** [r] is [x] rounded to two decimal places: a whole number of hundredths
    at most half a hundredth away from [x]. *)
Definition rounded_to_two_decimals (x r : Q) : Prop :=
  (exists k : Z, r = k # 100) /\ (Qabs (r - x) <= 1 # 200)%Q.

(** No character of [s] is white space. *)
Fixpoint no_white_space (s : string) : bool :=
  match s with
  | EmptyString => true
  | String c s' => negb (JSString.is_white_space c) && no_white_space s'
  end.

(** A handler [answers with] the headers it was given: it completes
    normally, from any trace, with a response carrying them. *)
Definition answers_with (h : Headers) (m : Async Response) : Prop :=
  forall w t, exists resp t',
    m w t = (Normal resp, t') /\ headers resp = h.

(** The request passes the gates before the download: it is a [POST] whose
    body is JSON with a truthy [url] that converts to [href] and parses. *)
Definition names_source
    (URL_parse : string -> option URL) (Number_toString : Q -> string)
    (request : Request) (body : JSValue) (href : string) (u : URL) : Prop :=
  method request = "POST"
  /\ req_json request = Normal body
  /\ JS.truthy (JS.get body "url") = true
  /\ ToString Number_toString (JS.get body "url") = Normal href
  /\ URL_parse href = Some u.

(** The source answered the [GET] with a 2xx response whose body reads as
    [blob]. *)
Definition downloads (w : World) (t : Trace) (href : string)
    (r : FetchResponse) (blob : Blob) : Prop :=
  net w t (mkCall href "GET" None) = Normal r
  /\ resp_ok r = true
  /\ resp_blob r = Normal blob.

(** [reaches_size_check w request bytes trace]: the request passes every
    gate its handler sets before the size check, which then sees a file of
    [bytes] bytes; [trace] is what the network was asked up to there.
    - [/upload]: the form parses and its [file] is a file.
    - [/upload/temp]: the same, and the [time] value (["1h"] when absent or
      empty) is one of [validTimes]: that gate comes before the size.
    - [/upload/url]: the body names a source that parses, and the download
      succeeded. *)
Inductive reaches_size_check
    (URL_parse : string -> option URL) (Number_toString : Q -> string)
    (w : World) (request : Request) : N -> Trace -> Prop :=
| size_check_upload (fd : FormData) (f : File) :
    pathname request = "/upload" ->
    req_formData request = Normal fd ->
    JS.FormData_get fd "file" = Some (FFile f) ->
    reaches_size_check URL_parse Number_toString w request (file_size f) []
| size_check_temp (fd : FormData) (f : File) :
    pathname request = "/upload/temp" ->
    req_formData request = Normal fd ->
    JS.FormData_get fd "file" = Some (FFile f) ->
    JS.includes validTimes
      (JS.entry_or (JS.FormData_get fd "time") (FString "1h")) = true ->
    reaches_size_check URL_parse Number_toString w request (file_size f) []
| size_check_url (body : JSValue) (href : string) (u : URL)
    (r : FetchResponse) (blob : Blob) :
    pathname request = "/upload/url" ->
    names_source URL_parse Number_toString request body href u ->
    downloads w [] href r blob ->
    reaches_size_check URL_parse Number_toString w request (blob_size blob)
      [(mkCall href "GET" None, Normal r)].

(** The multipart call [handleUpload] sends to catbox for [file]. *)
Definition catbox_upload (file : FormDataEntryValue) : FetchCall :=
  mkCall catbox_api "POST"
    (Some [("reqtype", FString "fileupload"); ("fileToUpload", file)]).

(** The answer of [handleUploadTemp] to a [time] outside [validTimes]. *)
Definition invalid_time (h : Headers) (time : FormDataEntryValue)
  : Response :=
  json_response 400 h
    (JObj [("error", JStr "Invalid time parameter");
           ("valid_times", JArr (map JStr validTimes));
           ("provided", JS.entry_value time)]).

(** The multipart call the URL relay sends to litterbox. *)
Definition litterbox_relay (time : string) (file : File) : FetchCall :=
  mkCall litterbox_api "POST"
    (Some [("reqtype", FString "fileupload");
           ("time", FString time);
           ("fileToUpload", FFile file)]).

(** The upstream's answer [r] counts as a failed upload: a status outside
    200..299, or a body that does not start with [https://]. *)
Definition upload_rejected (r : FetchResponse) : Prop :=
  resp_ok r = false
  \/ exists text, resp_text r = Normal text
                  /\ JSString.startsWith text "https://" = false.

(** The message of the error a handler throws on such an answer; [service]
    is the name the handler uses in its message. *)
Definition thrown_message (service : string) (r : FetchResponse) : string :=
  if resp_ok r then "Invalid response from " ++ service
  else "Upload failed with status " ++ JSString.of_N (resp_status r).

(** [handleUploadTemp] names litterbox; [handleUpload] and
    [handleUploadFromUrl] name catbox, the latter also when it relays to
    litterbox. *)
Definition service_named (request : Request) : string :=
  if String.eqb (pathname request) "/upload/temp" then "litterbox"
  else "catbox".

(** A status outside 200..299. *)
Definition non_2xx (r : FetchResponse) : Prop :=
  resp_status r < 200 \/ 299 < resp_status r.

(** The paths the router knows, and those of the three upload handlers. *)
Definition routes : list string :=
  ["/"; "/health"; "/upload"; "/upload/temp"; "/upload/url"].

Definition upload_routes : list string :=
  ["/upload"; "/upload/temp"; "/upload/url"].

(** The multipart call [handleUploadTemp] sends to litterbox. *)
Definition litterbox_upload (time file : FormDataEntryValue) : FetchCall :=
  mkCall litterbox_api "POST"
    (Some [("reqtype", FString "fileupload");
           ("time", time);
           ("fileToUpload", file)]).

(** The shape of an upload call: to catbox the request-type marker and the
    file; to litterbox the marker, a [time] and the file.  Nothing else. *)
Definition upload_call_shape (c : FetchCall) : Prop :=
  call_method c = "POST"
  /\ ((call_url c = catbox_api
       /\ exists file, call_body c
                       = Some [("reqtype", FString "fileupload");
                               ("fileToUpload", file)])
      \/ (call_url c = litterbox_api
          /\ exists time file, call_body c
                               = Some [("reqtype", FString "fileupload");
                                       ("time", time);
                                       ("fileToUpload", file)])).

(** The [time] entry of the form of an upload call, when it has one. *)
Definition call_time (c : FetchCall) : option FormDataEntryValue :=
  match call_body c with
  | Some fd => JS.FormData_get fd "time"
  | None => None
  end.

(** The [fileToUpload] entry of the form of an upload call. *)
Definition call_file (c : FetchCall) : option FormDataEntryValue :=
  match call_body c with
  | Some fd => JS.FormData_get fd "fileToUpload"
  | None => None
  end.

(** No character of [s] is a slash. *)
Fixpoint no_slash (s : string) : bool :=
  match s with
  | EmptyString => true
  | String c s' => negb (Ascii.eqb c "/"%char) && no_slash s'
  end.

(** The file name the URL relay derives from a parsed source URL, and the
    content type it takes from the download. *)
Definition relay_filename (u : URL) : string :=
  if JSString.is_empty (JSString.split_slash_pop (url_pathname u))
  then "download" else JSString.split_slash_pop (url_pathname u).

Definition relay_content_type (r : FetchResponse) : string :=
  match resp_content_type r with
  | Some ct => if JSString.is_empty ct then "application/octet-stream" else ct
  | None => "application/octet-stream"
  end.

(** A host operation failed with [e] during the run: a [fetch] rejected, or
    the body of a 2xx answer could not be read ([text()] of the upstream,
    [blob()] of the source). *)
Inductive host_failure (trace : Trace) (e : Error) : Prop :=
| fetch_rejected (c : FetchCall) :
    In (c, Throw e) trace -> host_failure trace e
| text_unreadable (c : FetchCall) (r : FetchResponse) :
    In (c, Normal r) trace -> is_upload_call c = true ->
    resp_ok r = true -> resp_text r = Throw e -> host_failure trace e
| blob_unreadable (c : FetchCall) (r : FetchResponse) :
    In (c, Normal r) trace -> is_upload_call c = false ->
    resp_ok r = true -> resp_blob r = Throw e -> host_failure trace e.

(** The multipart call of the URL relay: to litterbox with a [time] when
    [temporary], to catbox without one otherwise. *)
Definition relay_call (temporary : bool) (time : string) (file : File)
  : FetchCall :=
  mkCall (if temporary then litterbox_api else catbox_api) "POST"
    (Some ([("reqtype", FString "fileupload")]
           ++ (if temporary then [("time", FString time)] else [])
           ++ [("fileToUpload", FFile file)])%list).

(** The status of a run is one of the six the worker uses. *)
Definition status_in_range (m : Async Response) : Prop :=
  forall w, exists resp trace,
    m w [] = (Normal resp, trace)
    /\ In (status resp) [200; 400; 404; 405; 413; 500].

(** A run asks the network for at most one upload, and besides it for at
    most [extra] other calls. *)
Definition calls_bounded (extra : nat) (m : Async Response) : Prop :=
  forall w res trace,
    m w [] = (res, trace) ->
    (length (upload_calls trace) <= 1)%nat
    /\ (length trace <= length (upload_calls trace) + extra)%nat.

Definition sends_shaped_uploads (m : Async Response) : Prop :=
  forall w res trace c o,
    m w [] = (res, trace) ->
    In (c, o) trace -> is_upload_call c = true -> upload_call_shape c.

(** [front] is empty or ends with a slash. *)
Definition ends_path (front : string) : Prop :=
  front = "" \/ exists before, front = (before ++ "/")%string.

(** The value of a property of the body of a response. *)
Definition body_field (resp : Response) (key : string) : JSValue :=
  match body resp with
  | Some v => JS.get v key
  | None => JUndefined
  end.

(** A run that reports success has an upload call answered 2xx with an
    [https://] body, and the [url] it reports is that body trimmed. *)
Definition success_is_backed (m : Async Response) : Prop :=
  forall w resp trace,
    m w [] = (Normal resp, trace) ->
    body_field resp "success" = JBool true ->
    status resp = 200
    /\ exists c r text url,
         In (c, Normal r) trace
         /\ is_upload_call c = true
         /\ resp_ok r = true
         /\ resp_text r = Normal text
         /\ JSString.startsWith text "https://" = true
         /\ body_field resp "url" = JStr url
         /\ url = JSString.trim text
         /\ trimmed_of text url.

(** A run in which a host operation failed with [e] answers with the
    failure envelope carrying the message of [e]. *)
Definition failures_are_reported (h : Headers) (m : Async Response) : Prop :=
  forall w resp trace e,
    m w [] = (Normal resp, trace) ->
    host_failure trace e ->
    resp = upload_failed h e.

(* ================================================================== *)
(** ** Sample host functions and requests *)

(** Sample host functions and inputs, for running the worker on concrete
    requests. *)
Module Sample.

Fixpoint from_slash (s : string) : string :=
  match s with
  | EmptyString => "/"
  | String c s' => if Ascii.eqb c "/"%char then s else from_slash s'
  end.

(** Accepts [https://host/path] and [http://host/path]. *)
Definition URL_parse (s : string) : option URL :=
  if String.prefix "https://" s then
    Some (mkURL (from_slash (String.substring 8 (String.length s) s)))
  else if String.prefix "http://" s then
    Some (mkURL (from_slash (String.substring 7 (String.length s) s)))
  else None.

(** Prints the integer part. *)
Definition Number_toString (q : Q) : string :=
  (if Z.ltb (Qnum q) 0 then "-" else "")
  ++ JSString.of_N (Z.to_N (Z.abs (Qnum q) / Z.pos (Qden q))).

Definition no_body {A} : Completion A := Throw (mkError "Unexpected end of input").

Definition url_found : FetchResponse :=
  mkFetchResponse 200 (Some "text/plain")
    (Normal (mkBlob 27)) (Normal "https://files.catbox.moe/abc123.png").

Definition image (size : N) : FetchResponse :=
  mkFetchResponse 200 (Some "image/png") (Normal (mkBlob size)) (Normal "").

Definition not_found : FetchResponse :=
  mkFetchResponse 404 (Some "text/html") (Normal (mkBlob 9))
    (Normal "Not Found").

Definition bad_gateway : FetchResponse :=
  mkFetchResponse 502 None (Normal (mkBlob 0)) (Normal "").

Definition garbage : FetchResponse :=
  mkFetchResponse 200 (Some "text/html") (Normal (mkBlob 5))
    (Normal "oops!").

(** A world that answers a [GET] with [source] and a [POST] with
    [upstream]. *)
Definition world (source upstream : FetchResponse) : World :=
  mkWorld (fun _ c => if is_upload_call c then Normal upstream
                      else Normal source)
          "2024-01-01T00:00:00.000Z".

Definition a_png (size : N) : File := mkFile "a.png" size "image/png".

Definition post_form (path : string) (fd : FormData) : Request :=
  mkRequest "POST" path (Normal fd) no_body.

Definition post_json (path : string) (v : JSValue) : Request :=
  mkRequest "POST" path no_body (Normal v).

End Sample.

Definition big_png : File := Sample.a_png 314572800.

Definition cat_url : JSValue := JStr "https://example.com/pics/cat.png".

Definition oversize_with_bad_time : Request :=
  Sample.post_form "/upload/temp"
    [("file", FFile big_png); ("time", FString "5h")].

Definition five_MiB_png : File := Sample.a_png 5242880.

(** A form whose [file] entry is a string, not a file. *)
Definition text_as_file : Request :=
  Sample.post_form "/upload" [("file", FString "hello")].

Definition small_png : File := Sample.a_png 1000.

Definition upload_with_empty_time : Request :=
  Sample.post_form "/upload/temp"
    [("file", FFile small_png); ("time", FString "")].

Definition not_multipart : Error :=
  mkError "Unrecognized Content-Type header value.".

Definition not_json : Error := mkError "Unexpected token h in JSON".

Definition relay_forever : JSValue :=
  JObj [("url", cat_url); ("temporary", JBool true);
        ("time", JStr "forever")].

(** A world whose network is down. *)
Definition offline : World :=
  mkWorld (fun _ _ => Throw (mkError "Network connection lost."))
          "2024-01-01T00:00:00.000Z".

Definition exactly_200_MiB : File := Sample.a_png 209715200.

Definition relay_permanent : JSValue := JObj [("url", cat_url)].

Definition relay_temporary : JSValue :=
  JObj [("url", cat_url); ("temporary", JBool true)].

Definition two_call_trace : Trace :=
  [(mkCall "https://example.com/pics/cat.png" "GET" None,
    Normal (Sample.image 5000000));
   (litterbox_relay "forever" (mkFile "cat.png" 5000000 "image/png"),
    Normal Sample.garbage)].

Definition slash_url : JSValue := JStr "https://example.com/pics/".

(** An upstream answer as catbox sends it, the URL followed by a line end,
    and one with white space on both sides. *)
Definition line_end : string := String "013"%char (String "010"%char "").

Definition url_line : FetchResponse :=
  mkFetchResponse 200 (Some "text/plain") (Normal (mkBlob 37))
    (Normal ("https://files.catbox.moe/abc123.png" ++ line_end)).

Definition padded_url : string :=
  String "009"%char (" https://files.catbox.moe/abc123.png " ++ line_end).

(** A download whose content type has upper-case letters. *)
Definition mixed_case_image : FetchResponse :=
  mkFetchResponse 200 (Some "Image/PNG") (Normal (mkBlob 5000000))
    (Normal "").

(** A download whose content type holds a TAB. *)
Definition tabbed_type : FetchResponse :=
  mkFetchResponse 200 (Some (String "009"%char "text/html"))
    (Normal (mkBlob 9)) (Normal "").

(* ================================================================== *)
(** * Properties *)

(** ** Sizes in MiB and the 200 MiB ceiling *)

Lemma fileSizeMB_exact (bytes : N) :
  JSNumber.div_pos (JSNumber.of_N bytes) MiB = Finite (size_in_MiB bytes).
Proof. reflexivity. Qed.

Lemma size_in_MiB_nonneg (bytes : N) : (0 <= size_in_MiB bytes)%Q.
Proof.
  unfold size_in_MiB, Qle, Qdiv, Qmult, Qinv; cbn. lia.
Qed.

Lemma over_limit_true (bytes : N) :
  (inject_Z 200 < size_in_MiB bytes)%Q ->
  JSNumber.gt (Finite (size_in_MiB bytes)) limit_MB = true.
Proof.
  intros H. unfold JSNumber.gt, limit_MB, JSNumber.of_N.
  apply negb_true_iff. apply not_true_is_false. intros Hle.
  apply Qle_bool_iff in Hle. apply (Qlt_not_le _ _ H). exact Hle.
Qed.

Lemma over_limit_false (bytes : N) :
  (size_in_MiB bytes <= inject_Z 200)%Q ->
  JSNumber.gt (Finite (size_in_MiB bytes)) limit_MB = false.
Proof.
  intros H. unfold JSNumber.gt, limit_MB, JSNumber.of_N.
  apply negb_false_iff. apply Qle_bool_iff. exact H.
Qed.

(** In bytes the ceiling is 209,715,200. *)
Lemma over_limit_bytes (bytes : N) :
  (inject_Z 200 < size_in_MiB bytes)%Q <-> 209715200 < bytes.
Proof.
  unfold size_in_MiB, Qlt, Qdiv, Qmult, Qinv; cbn. lia.
Qed.

(** ** Printing and reading back two decimals *)

Lemma string_of_uint_digits (d : Decimal.uint) :
  all_digits (NilEmpty.string_of_uint d) = true.
Proof.
  induction d; cbn; auto.
Qed.

Lemma of_N_digits (n : N) : all_digits (JSString.of_N n) = true.
Proof.
  unfold JSString.of_N, NilZero.string_of_uint.
  destruct (N.to_uint n); try reflexivity;
    apply (string_of_uint_digits (_ _)).
Qed.

Lemma of_N_nonempty (n : N) :
  exists c s, JSString.of_N n = String c s /\ JSNumber.is_digit c = true.
Proof.
  pose proof (of_N_digits n) as H.
  unfold JSString.of_N, NilZero.string_of_uint in *.
  destruct (N.to_uint n); cbn in *; eauto.
Qed.

Lemma take_digits_app (ds rest : string) :
  all_digits ds = true ->
  JSNumber.take_digits rest = (EmptyString, rest) ->
  JSNumber.take_digits (ds ++ rest) = (ds, rest).
Proof.
  induction ds as [|c ds IH]; cbn; intros Hd Hr.
  - exact Hr.
  - apply andb_true_iff in Hd as [Hc Hd]. rewrite Hc, (IH Hd Hr). reflexivity.
Qed.

Lemma digits_value_of_N (n : N) :
  JSNumber.digits_value (JSString.of_N n) = n.
Proof.
  unfold JSNumber.digits_value, JSString.of_N.
  rewrite NilZero.usu.
  - apply DecimalN.Unsigned.of_to.
  - destruct n; cbn; [discriminate|].
    apply DecimalPos.Unsigned.to_uint_nonnil.
Qed.

Lemma two_digits_read (a b : N) :
  a < 10 -> b < 10 ->
  JSNumber.take_digits (two_digits a b) = (two_digits a b, EmptyString)
  /\ JSNumber.digits_value (two_digits a b) = 10 * a + b
  /\ String.length (two_digits a b) = 2%nat.
Proof.
  intros Ha Hb.
  assert (Ea : a = 0 \/ a = 1 \/ a = 2 \/ a = 3 \/ a = 4 \/ a = 5 \/ a = 6
               \/ a = 7 \/ a = 8 \/ a = 9) by lia.
  assert (Eb : b = 0 \/ b = 1 \/ b = 2 \/ b = 3 \/ b = 4 \/ b = 5 \/ b = 6
               \/ b = 7 \/ b = 8 \/ b = 9) by lia.
  repeat (destruct Ea as [Ea|Ea]); subst a;
    repeat (destruct Eb as [Eb|Eb]); subst b; vm_compute; auto.
Qed.

Lemma digit_not_sign (c : ascii) :
  JSNumber.is_digit c = true ->
  Ascii.eqb c "-"%char = false /\ Ascii.eqb c "+"%char = false
  /\ Ascii.eqb c "."%char = false.
Proof.
  destruct c as [[] [] [] [] [] [] [] []]; intros H;
    try (repeat split; reflexivity); discriminate H.
Qed.

Lemma digit_not_space (c : ascii) :
  JSNumber.is_digit c = true -> JSString.is_white_space c = false.
Proof.
  destruct c as [[] [] [] [] [] [] [] []]; intros H;
    try reflexivity; discriminate H.
Qed.

(** Reading back what [toFixed(2)] prints for a non-negative number gives
    the hundredths it rounded to. *)
Lemma parseFloat_toFixed2 (q : Q) :
  (0 <= Qnum q)%Z ->
  JSNumber.parseFloat (JSNumber.toFixed2 (Finite q))
  = Finite (Z.of_N (JSNumber.round_hundredths q) # 100).
Proof.
  intros Hq.
  assert (Habs : Qabs q = q).
  { destruct q as [n d]; cbn in *. now rewrite Z.abs_eq. }
  assert (Hsign : Qle_bool 0 q = true).
  { apply Qle_bool_iff. unfold Qle; cbn. lia. }
  unfold JSNumber.toFixed2. rewrite Habs, Hsign.
  set (n := JSNumber.round_hundredths q).
  change (String (JSNumber.digit_char (n mod 100 / 10))
            (String (JSNumber.digit_char (n mod 10)) EmptyString))
    with (two_digits (n mod 100 / 10) (n mod 10)).
  change ("" ++ JSString.of_N (n / 100) ++ "."
             ++ two_digits (n mod 100 / 10) (n mod 10))
    with (JSString.of_N (n / 100) ++ "."
             ++ two_digits (n mod 100 / 10) (n mod 10)).
  destruct (of_N_nonempty (n / 100)) as (c & s & Hs & Hc).
  assert (Ha : n mod 100 / 10 < 10).
  { apply N.Div0.div_lt_upper_bound. pose proof (N.mod_lt n 100). lia. }
  assert (Hb : n mod 10 < 10) by (apply N.mod_lt; lia).
  destruct (two_digits_read _ _ Ha Hb) as (Ht & Hv & Hl).
  destruct (digit_not_sign _ Hc) as (Hminus & Hplus & _).
  assert (Hparse : JSNumber.parse_unsigned
                     (JSString.of_N (n / 100) ++ "."
                        ++ two_digits (n mod 100 / 10) (n mod 10))
                   = Some (Z.of_N n # 100)).
  { unfold JSNumber.parse_unsigned.
    rewrite (take_digits_app _ _ (of_N_digits _)) by reflexivity.
    cbn [append]. rewrite Ascii.eqb_refl, Ht. cbn [fst].
    rewrite Hs at 1.
    change (two_digits (n mod 100 / 10) (n mod 10))
      with (String (JSNumber.digit_char (n mod 100 / 10))
              (String (JSNumber.digit_char (n mod 10)) EmptyString)) at 1.
    cbv iota beta.
    rewrite Hl, Hv, digits_value_of_N.
    change (Pos.pow 10 (Pos.of_nat 2)) with 100%positive.
    f_equal. f_equal. f_equal.
    zify. Z.to_euclidean_division_equations. lia. }
  unfold JSNumber.parseFloat.
  rewrite Hs in *. cbn [append JSString.trimStart].
  rewrite (digit_not_space _ Hc), Hminus, Hplus.
  unfold JSNumber.unsigned_or_NaN.
  cbn [append] in Hparse. rewrite Hparse. reflexivity.
Qed.

Lemma round_hundredths_nearest (q : Q) :
  (0 <= Qnum q)%Z ->
  (Qabs ((Z.of_N (JSNumber.round_hundredths q) # 100) - q) <= 1 # 200)%Q.
Proof.
  intros Hq. destruct q as [num den]; cbn in Hq.
  unfold JSNumber.round_hundredths; cbn [Qnum Qden].
  set (k := ((2 * 100 * num + Z.pos den) / (2 * Z.pos den))%Z).
  assert (Hk : (0 <= k)%Z) by (apply Z.div_pos; lia).
  rewrite Z2N.id by exact Hk.
  assert (Hlo : (2 * Z.pos den * k <= 2 * 100 * num + Z.pos den)%Z).
  { apply Z.mul_div_le. lia. }
  assert (Hhi : (2 * 100 * num + Z.pos den < 2 * Z.pos den * (k + 1))%Z).
  { rewrite Z.mul_add_distr_l, Z.mul_1_r.
    pose proof (Z.mod_pos_bound (2 * 100 * num + Z.pos den) (2 * Z.pos den)
                  ltac:(lia)) as Hm.
    pose proof (Z.div_mod (2 * 100 * num + Z.pos den) (2 * Z.pos den)
                  ltac:(lia)) as Hd.
    fold k in Hd. lia. }
  apply Qabs_Qle_condition. unfold Qle, Qminus, Qplus, Qopp; cbn.
  split; nia.
Qed.

Lemma size_mb_rounded (bytes : N) :
  exists r, size_mb (Finite (size_in_MiB bytes)) = JNum (Finite r)
            /\ rounded_to_two_decimals (size_in_MiB bytes) r.
Proof.
  assert (Hnum : (0 <= Qnum (size_in_MiB bytes))%Z).
  { unfold size_in_MiB, Qdiv, Qmult, Qinv; cbn. lia. }
  exists (Z.of_N (JSNumber.round_hundredths (size_in_MiB bytes)) # 100).
  split.
  - unfold size_mb. now rewrite parseFloat_toFixed2.
  - split; [eauto | now apply round_hundredths_nearest].
Qed.

Example toFixed2_tie : JSNumber.toFixed2 (Finite (size_in_MiB 131072)) = "0.13".
Proof. reflexivity. Qed.

Example toFixed2_NaN : size_mb NaN = JNum NaN.
Proof. reflexivity. Qed.

(** ** Trimming keeps a prefix that has no white space *)

Lemma trimEnd_cons (c : ascii) (s : string) :
  JSString.is_white_space c = false ->
  JSString.trimEnd (String c s) = String c (JSString.trimEnd s).
Proof.
  intros Hc. cbn. rewrite Hc. now destruct (JSString.trimEnd s).
Qed.

Lemma prefix_trimEnd (p s : string) :
  no_white_space p = true ->
  String.prefix p s = true -> String.prefix p (JSString.trimEnd s) = true.
Proof.
  revert s. induction p as [|a p IH]; intros s Hp Hs.
  - now destruct (JSString.trimEnd s).
  - destruct s as [|b s]; [discriminate Hs|].
    cbn in Hp. apply andb_true_iff in Hp as [Ha Hp].
    apply negb_true_iff in Ha.
    cbn in Hs. destruct (ascii_dec a b) as [<-|]; [|discriminate Hs].
    rewrite trimEnd_cons by exact Ha. cbn.
    destruct (ascii_dec a a) as [_|Hne]; [|now elim Hne].
    now apply IH.
Qed.

Lemma startsWith_trim (s p : string) :
  no_white_space p = true -> p <> EmptyString ->
  JSString.startsWith s p = true ->
  JSString.startsWith (JSString.trim s) p = true.
Proof.
  unfold JSString.startsWith, JSString.trim. intros Hp Hne Hs.
  destruct p as [|a p]; [now elim Hne|].
  destruct s as [|b s]; [discriminate Hs|].
  assert (Hb : JSString.is_white_space b = false).
  { cbn in Hs. destruct (ascii_dec a b) as [<-|]; [|discriminate Hs].
    cbn in Hp. apply andb_true_iff in Hp as [Ha _].
    now apply negb_true_iff in Ha. }
  cbn [JSString.trimStart]. rewrite Hb.
  now apply prefix_trimEnd.
Qed.

(** ** What trimming yields *)

Lemma trimStart_spec (s : string) :
  exists before,
    s = (before ++ JSString.trimStart s)%string
    /\ all_white_space before = true
    /\ starts_clean (JSString.trimStart s) = true.
Proof.
  induction s as [|c s (before & Hs & Hw & Hc)]; cbn [JSString.trimStart].
  - exists EmptyString. repeat split.
  - destruct (JSString.is_white_space c) eqn:Ec.
    + exists (String c before). cbn. rewrite Ec, Hw, <- Hs. repeat split.
      exact Hc.
    + exists EmptyString. cbn. rewrite Ec. repeat split.
Qed.

Lemma trimEnd_spec (s : string) :
  exists after,
    s = (JSString.trimEnd s ++ after)%string
    /\ all_white_space after = true
    /\ ends_clean (JSString.trimEnd s) = true.
Proof.
  induction s as [|c s (after & Hs & Hw & Hc)]; cbn [JSString.trimEnd].
  - exists EmptyString. repeat split.
  - destruct (JSString.trimEnd s) as [|d t] eqn:Et.
    + cbn in Hs. subst after.
      destruct (JSString.is_white_space c) eqn:Ec.
      * exists (String c s). cbn. rewrite Ec, Hw. repeat split.
      * exists s. cbn. rewrite Ec. repeat split. exact Hw.
    + exists after. split; [|split; [exact Hw | exact Hc]].
      cbn. cbn in Hs. now rewrite <- Hs.
Qed.

Lemma trimEnd_starts_clean (s : string) :
  starts_clean s = true -> starts_clean (JSString.trimEnd s) = true.
Proof.
  destruct s as [|c s]; [reflexivity|]. cbn [starts_clean]. intros Hc.
  rewrite trimEnd_cons by now apply negb_true_iff. exact Hc.
Qed.

(** [String.prototype.trim] removes the white space at both ends, and
    nothing else. *)
Lemma trim_is_trimmed (text : string) :
  trimmed_of text (JSString.trim text).
Proof.
  unfold JSString.trim.
  destruct (trimStart_spec text) as (before & Hb & Hwb & Hcb).
  destruct (trimEnd_spec (JSString.trimStart text)) as (after & Ha & Hwa & Hca).
  exists before, after. split; [|repeat split; auto].
  - rewrite <- Ha. exact Hb.
  - now apply trimEnd_starts_clean.
Qed.

Example trim_both_ends :
  JSString.trim padded_url = "https://files.catbox.moe/abc123.png".
Proof. reflexivity. Qed.

Example trim_keeps_inner_space : JSString.trim "  a b  " = "a b".
Proof. reflexivity. Qed.

(** ** What a constructed file's type looks like *)

Lemma lowercase_char_normal (c : ascii) :
  JSFile.is_printable c = true ->
  JSFile.is_printable (JSFile.lowercase_char c) = true
  /\ not_upper (JSFile.lowercase_char c) = true.
Proof.
  destruct c as [[] [] [] [] [] [] [] []]; intros H;
    try discriminate H; split; reflexivity.
Qed.

Lemma normalize_type_normal (t : string) :
  normal_type (JSFile.normalize_type t) = true.
Proof.
  unfold JSFile.normalize_type.
  destruct (JSFile.all_printable t) eqn:Hp; [|reflexivity].
  induction t as [|c t IH]; [reflexivity|].
  cbn in Hp. apply andb_true_iff in Hp as [Hc Hp].
  cbn. destruct (lowercase_char_normal c Hc) as [-> ->].
  now apply IH.
Qed.

Example File_type_lowercased :
  file_type (new_File (mkBlob 1) "a.html" "Text/HTML; charset=UTF-8")
  = "text/html; charset=utf-8".
Proof. reflexivity. Qed.

Example File_type_emptied :
  file_type (new_File (mkBlob 1) "a.html" (String "009"%char "text/html"))
  = "".
Proof. reflexivity. Qed.

(* ================================================================== *)
(** ** Every response carries the shared headers *)

Ltac unfold_async :=
  unfold Async.run, Async.try_catch, Async.bind, Async.await, Async.ret,
    Async.throw, Async.fetch, Async.now_iso in *.

(** Splits on the first scrutinee of the goal that is not yet a
    constructor. *)
Ltac split_first :=
  match goal with
  | |- context [match ?x with _ => _ end] =>
      is_var x; destruct x
  | |- context [match ?x with _ => _ end] =>
      lazymatch x with
      | context [match _ with _ => _ end] => fail
      | _ => destruct x eqn:?
      end
  end.

Ltac split_all := repeat (cbv beta iota zeta; split_first).

Lemma handleRoot_headers (h : Headers) : answers_with h (handleRoot h).
Proof. intros w t. unfold handleRoot. unfold_async. eauto. Qed.

Lemma handleHealth_headers (h : Headers) : answers_with h (handleHealth h).
Proof. intros w t. unfold handleHealth. unfold_async. eauto. Qed.

Lemma handleUpload_headers (request : Request) (h : Headers) :
  answers_with h (handleUpload request h).
Proof.
  intros w t. unfold handleUpload. unfold_async.
  split_all; eauto.
Qed.

Lemma handleUploadTemp_headers (request : Request) (h : Headers) :
  answers_with h (handleUploadTemp request h).
Proof.
  intros w t. unfold handleUploadTemp. unfold_async.
  split_all; eauto.
Qed.

Section RouterHeaders.

Variable URL_parse : string -> option URL.
Variable Number_toString : Q -> string.

Lemma handleUploadFromUrl_headers (request : Request) (h : Headers) :
  answers_with h (handleUploadFromUrl URL_parse Number_toString request h).
Proof.
  intros w t. unfold handleUploadFromUrl. unfold_async.
  split_all; eauto.
Qed.

Lemma fetch_headers (request : Request) :
  answers_with corsHeaders (fetch URL_parse Number_toString request).
Proof.
  intros w t. unfold fetch.
  destruct (String.eqb (method request) "OPTIONS").
  { unfold_async. eauto. }
  destruct (String.eqb (pathname request) "/").
  { unfold Async.try_catch.
    destruct (handleRoot_headers corsHeaders w t) as (r & t' & -> & ?); eauto. }
  destruct (String.eqb (pathname request) "/health").
  { unfold Async.try_catch.
    destruct (handleHealth_headers corsHeaders w t) as (r & t' & -> & ?); eauto. }
  destruct (String.eqb (pathname request) "/upload").
  { apply handleUpload_headers. }
  destruct (String.eqb (pathname request) "/upload/temp").
  { apply handleUploadTemp_headers. }
  destruct (String.eqb (pathname request) "/upload/url").
  { apply handleUploadFromUrl_headers. }
  unfold_async. eauto.
Qed.

End RouterHeaders.

(** C6.  Whatever the request (method, path, body) and whatever the network
    answers, the worker completes with a response, and that response carries
    [Content-Type: application/json] and [Access-Control-Allow-Origin: *]
    (its header table is [corsHeaders]). *)
Theorem every_response_has_json_and_cors_headers
    (URL_parse : string -> option URL) (Number_toString : Q -> string)
    (request : Request) (w : World) :
  exists resp trace,
    Async.run (fetch URL_parse Number_toString request) w
      = (Normal resp, trace)
    /\ headers resp = corsHeaders
    /\ header (headers resp) "Content-Type" = Some "application/json"
    /\ header (headers resp) "Access-Control-Allow-Origin" = Some "*".
Proof.
  destruct (fetch_headers URL_parse Number_toString request w [])
    as (resp & trace & Hrun & Hh).
  exists resp, trace. rewrite Hh. repeat split; auto.
Qed.

(** C7.  A request with method [OPTIONS] is answered, whatever its path and
    body and whatever the world, with one fixed response: status 200, the
    [null] body and the three CORS headers.  The answer is given before the
    router looks at the path: no handler contributes to it and no network
    call is made. *)
Theorem options_preflight
    (URL_parse : string -> option URL) (Number_toString : Q -> string)
    (request : Request) (w : World) :
  method request = "OPTIONS" ->
  exists resp,
    Async.run (fetch URL_parse Number_toString request) w = (Normal resp, [])
    /\ resp = mkResponse 200 corsHeaders None
    /\ status resp = 200
    /\ body resp = None
    /\ header (headers resp) "Access-Control-Allow-Origin" = Some "*"
    /\ header (headers resp) "Access-Control-Allow-Methods"
       = Some "GET, POST, OPTIONS"
    /\ header (headers resp) "Access-Control-Allow-Headers"
       = Some "Content-Type".
Proof.
  intros Hm. unfold fetch. rewrite Hm. cbn.
  eexists; repeat split.
Qed.

Lemma options_preflight_witness :
  exists resp,
    Async.run (fetch Sample.URL_parse Sample.Number_toString
                 (mkRequest "OPTIONS" "/upload/url"
                    Sample.no_body Sample.no_body))
      (Sample.world Sample.not_found Sample.bad_gateway) = (Normal resp, [])
    /\ resp = mkResponse 200 corsHeaders None
    /\ status resp = 200
    /\ body resp = None
    /\ header (headers resp) "Access-Control-Allow-Origin" = Some "*"
    /\ header (headers resp) "Access-Control-Allow-Methods"
       = Some "GET, POST, OPTIONS"
    /\ header (headers resp) "Access-Control-Allow-Headers"
       = Some "Content-Type".
Proof.
  apply options_preflight. reflexivity.
Defined.

(* ================================================================== *)
(** ** Routing of the upload paths *)

Section Routing.

Variable URL_parse : string -> option URL.
Variable Number_toString : Q -> string.

Lemma route_upload (request : Request) :
  method request = "POST" -> pathname request = "/upload" ->
  fetch URL_parse Number_toString request = handleUpload request corsHeaders.
Proof. intros Hm Hp. unfold fetch. rewrite Hm, Hp. reflexivity. Qed.

Lemma route_upload_temp (request : Request) :
  method request = "POST" -> pathname request = "/upload/temp" ->
  fetch URL_parse Number_toString request
  = handleUploadTemp request corsHeaders.
Proof. intros Hm Hp. unfold fetch. rewrite Hm, Hp. reflexivity. Qed.

Lemma route_upload_url (request : Request) :
  method request = "POST" -> pathname request = "/upload/url" ->
  fetch URL_parse Number_toString request
  = handleUploadFromUrl URL_parse Number_toString request corsHeaders.
Proof. intros Hm Hp. unfold fetch. rewrite Hm, Hp. reflexivity. Qed.

End Routing.

(* ================================================================== *)
(** ** The size ceiling *)

(** Runs a handler forward: reduces, and rewrites with the equations at
    hand wherever their left-hand side shows up. *)
Ltac run_with_hyps :=
  repeat (cbv beta iota zeta;
          cbn [negb JS.entry_truthy JS.entry_size];
          rewrite ?fileSizeMB_exact;
          match goal with
          | H : ?l = _ |- context [?l] => rewrite H
          end);
  cbv beta iota zeta.

(** Rewrites the method test of a handler that received a [POST]. *)
Ltac enter_post Hm :=
  rewrite Hm;
  change (negb (String.eqb "POST" "POST")) with false;
  cbv iota.

Lemma handleUpload_oversize (request : Request) (h : Headers)
    (w : World) (t : Trace) (fd : FormData) (f : File) :
  method request = "POST" ->
  req_formData request = Normal fd ->
  JS.FormData_get fd "file" = Some (FFile f) ->
  (inject_Z 200 < size_in_MiB (file_size f))%Q ->
  handleUpload request h w t
  = (Normal (file_too_large h (Finite (size_in_MiB (file_size f)))), t).
Proof.
  intros Hm Hfd Hfile Hbig. unfold handleUpload. enter_post Hm.
  unfold_async. rewrite Hfd, Hfile.
  cbn [JS.entry_truthy JS.entry_size negb].
  rewrite fileSizeMB_exact, (over_limit_true _ Hbig). reflexivity.
Qed.

Lemma handleUploadTemp_oversize (request : Request) (h : Headers)
    (w : World) (t : Trace) (fd : FormData) (f : File) :
  method request = "POST" ->
  req_formData request = Normal fd ->
  JS.FormData_get fd "file" = Some (FFile f) ->
  JS.includes validTimes
    (JS.entry_or (JS.FormData_get fd "time") (FString "1h")) = true ->
  (inject_Z 200 < size_in_MiB (file_size f))%Q ->
  handleUploadTemp request h w t
  = (Normal (file_too_large h (Finite (size_in_MiB (file_size f)))), t).
Proof.
  intros Hm Hfd Hfile Htime Hbig. unfold handleUploadTemp. enter_post Hm.
  unfold_async. rewrite Hfd. cbv beta iota zeta. rewrite Hfile, Htime.
  cbn [JS.entry_truthy JS.entry_size negb].
  rewrite fileSizeMB_exact, (over_limit_true _ Hbig). reflexivity.
Qed.

Lemma truthy_get_object (body : JSValue) (key : string) :
  JS.truthy (JS.get body key) = true -> exists fields, body = JObj fields.
Proof.
  destruct body; cbn; intros H; try discriminate H. eauto.
Qed.

Section UrlRelay.

Variable URL_parse : string -> option URL.
Variable Number_toString : Q -> string.

Lemma handleUploadFromUrl_source_failed (request : Request) (h : Headers)
    (w : World) (t : Trace) (body : JSValue) (href : string) (u : URL)
    (r : FetchResponse) :
  names_source URL_parse Number_toString request body href u ->
  net w t (mkCall href "GET" None) = Normal r ->
  resp_ok r = false ->
  handleUploadFromUrl URL_parse Number_toString request h w t
  = (Normal (json_response 400 h
               (JObj [("error", JStr "Failed to download file");
                      ("status", JNum (JSNumber.of_N (resp_status r)))])),
     (t ++ [(mkCall href "GET" None, Normal r)])%list).
Proof.
  intros (Hm & Hjson & Htruthy & Hstr & Hparse) Hnet Hok.
  destruct (truthy_get_object _ _ Htruthy) as (fields & ->).
  unfold handleUploadFromUrl. enter_post Hm.
  unfold_async. unfold new_URL.
  run_with_hyps. reflexivity.
Qed.

Lemma handleUploadFromUrl_oversize (request : Request) (h : Headers)
    (w : World) (t : Trace) (body : JSValue) (href : string) (u : URL)
    (r : FetchResponse) (blob : Blob) :
  names_source URL_parse Number_toString request body href u ->
  downloads w t href r blob ->
  (inject_Z 200 < size_in_MiB (blob_size blob))%Q ->
  handleUploadFromUrl URL_parse Number_toString request h w t
  = (Normal (file_too_large h (Finite (size_in_MiB (blob_size blob)))),
     (t ++ [(mkCall href "GET" None, Normal r)])%list).
Proof.
  intros (Hm & Hjson & Htruthy & Hstr & Hparse) (Hnet & Hok & Hblob) Hbig.
  destruct (truthy_get_object _ _ Htruthy) as (fields & ->).
  pose proof (over_limit_true _ Hbig) as Hgt.
  unfold handleUploadFromUrl. enter_post Hm.
  unfold_async. unfold new_URL.
  run_with_hyps. reflexivity.
Qed.

End UrlRelay.

(** C1 (amended).  A [POST] on [/upload], [/upload/temp] or [/upload/url]
    that reaches the size check with a file whose size in bytes divided by
    1,048,576 exceeds 200 is answered with status 413, and no upstream
    upload call is made: the trace is empty, or holds the download alone.
    On [/upload/temp] the [time] value is validated first, so the request
    reaches the size check only with a valid [time]. *)
Theorem oversize_upload_is_413
    (URL_parse : string -> option URL) (Number_toString : Q -> string)
    (w : World) (request : Request) (bytes : N) (trace : Trace) :
  method request = "POST" ->
  reaches_size_check URL_parse Number_toString w request bytes trace ->
  (inject_Z 200 < size_in_MiB bytes)%Q ->
  exists resp,
    Async.run (fetch URL_parse Number_toString request) w
      = (Normal resp, trace)
    /\ resp = file_too_large corsHeaders (Finite (size_in_MiB bytes))
    /\ status resp = 413
    /\ upload_calls trace = [].
Proof.
  intros Hm Hreach Hbig. eexists. split; [|repeat split].
  - unfold Async.run.
    destruct Hreach as [fd f Hp Hfd Hf | fd f Hp Hfd Hf Ht
                       | body href u r blob Hp Hsrc Hdl].
    + rewrite (route_upload _ _ _ Hm Hp).
      now apply handleUpload_oversize with (fd := fd).
    + rewrite (route_upload_temp _ _ _ Hm Hp).
      now apply handleUploadTemp_oversize with (fd := fd).
    + rewrite (route_upload_url _ _ _ Hm Hp).
      now apply (handleUploadFromUrl_oversize _ _ _ _ w [] body href u).
  - destruct Hreach; reflexivity.
Qed.

Lemma oversize_upload_is_413_witness :
  (exists resp,
     Async.run (fetch Sample.URL_parse Sample.Number_toString
                  (Sample.post_form "/upload" [("file", FFile big_png)]))
       (Sample.world Sample.not_found Sample.url_found) = (Normal resp, [])
     /\ resp = file_too_large corsHeaders (Finite (size_in_MiB 314572800))
     /\ status resp = 413
     /\ upload_calls [] = [])
  /\ (exists resp,
     Async.run (fetch Sample.URL_parse Sample.Number_toString
                  (Sample.post_form "/upload/temp"
                     [("file", FFile big_png); ("time", FString "12h")]))
       (Sample.world Sample.not_found Sample.url_found) = (Normal resp, [])
     /\ resp = file_too_large corsHeaders (Finite (size_in_MiB 314572800))
     /\ status resp = 413
     /\ upload_calls [] = [])
  /\ (exists resp,
     Async.run (fetch Sample.URL_parse Sample.Number_toString
                  (Sample.post_json "/upload/url" (JObj [("url", cat_url)])))
       (Sample.world (Sample.image 314572800) Sample.url_found)
     = (Normal resp,
        [(mkCall "https://example.com/pics/cat.png" "GET" None,
          Normal (Sample.image 314572800))])
     /\ resp = file_too_large corsHeaders (Finite (size_in_MiB 314572800))
     /\ status resp = 413
     /\ upload_calls
          [(mkCall "https://example.com/pics/cat.png" "GET" None,
            Normal (Sample.image 314572800))] = []).
Proof.
  split; [|split].
  - apply (oversize_upload_is_413 Sample.URL_parse Sample.Number_toString
             _ _ 314572800 []);
      [reflexivity | | reflexivity].
    now apply (size_check_upload _ _ _ _ [("file", FFile big_png)] big_png).
  - apply (oversize_upload_is_413 Sample.URL_parse Sample.Number_toString
             _ _ 314572800 []);
      [reflexivity | | reflexivity].
    now apply (size_check_temp _ _ _ _
                 [("file", FFile big_png); ("time", FString "12h")] big_png).
  - apply (oversize_upload_is_413 Sample.URL_parse Sample.Number_toString
             _ _ 314572800);
      [reflexivity | | reflexivity].
    apply (size_check_url _ _ _ _ (JObj [("url", cat_url)])
             "https://example.com/pics/cat.png" (mkURL "/pics/cat.png")
             (Sample.image 314572800) (mkBlob 314572800));
      [reflexivity | repeat split | repeat split].
Defined.

(** C1 as first stated fails on [/upload/temp]: a 300 MiB file sent with
    [time = 5h] is answered 400, not 413. *)
Lemma oversize_with_bad_time_is_400 :
  (inject_Z 200 < size_in_MiB (file_size big_png))%Q
  /\ method oversize_with_bad_time = "POST"
  /\ pathname oversize_with_bad_time = "/upload/temp"
  /\ req_formData oversize_with_bad_time
     = Normal [("file", FFile big_png); ("time", FString "5h")]
  /\ exists resp,
       Async.run (fetch Sample.URL_parse Sample.Number_toString
                    oversize_with_bad_time)
         (Sample.world Sample.not_found Sample.url_found)
       = (Normal resp, [])
       /\ status resp = 400
       /\ status resp <> 413.
Proof.
  repeat split. eexists. split; [vm_compute; reflexivity|].
  split; [reflexivity | discriminate].
Qed.

(* ================================================================== *)
(** ** A successful direct upload *)

Lemma handleUpload_success (request : Request) (h : Headers)
    (w : World) (t : Trace) (fd : FormData) (f : File)
    (r : FetchResponse) (result : string) :
  method request = "POST" ->
  req_formData request = Normal fd ->
  JS.FormData_get fd "file" = Some (FFile f) ->
  (size_in_MiB (file_size f) <= inject_Z 200)%Q ->
  net w t (catbox_upload (FFile f)) = Normal r ->
  resp_ok r = true ->
  resp_text r = Normal result ->
  JSString.startsWith result "https://" = true ->
  handleUpload request h w t
  = (Normal (json_response 200 h
       (JObj [("success", JBool true);
              ("url", JStr (JSString.trim result));
              ("filename", JStr (file_name f));
              ("size_mb", size_mb (Finite (size_in_MiB (file_size f))))])),
     (t ++ [(catbox_upload (FFile f), Normal r)])%list).
Proof.
  intros Hm Hfd Hfile Hsmall Hnet Hok Htext Hurl.
  pose proof (over_limit_false _ Hsmall) as Hgt.
  unfold catbox_upload in *.
  unfold handleUpload. enter_post Hm. unfold_async.
  run_with_hyps. reflexivity.
Qed.

(** C2.  A [POST /upload] with a file of at most 200 MiB, to which the
    upstream answers with a 2xx status and a body starting with [https://],
    is answered with the body [{success: true, url, filename, size_mb}]:
    [url] is the upstream body trimmed (the body is [url] followed, and
    possibly preceded, by white space only, and [url] has white space at
    neither end) and begins with [https://], [filename] is the file's name,
    and [size_mb] is the size in MiB rounded to two decimal places. *)
Theorem upload_success_envelope
    (URL_parse : string -> option URL) (Number_toString : Q -> string)
    (w : World) (request : Request) (fd : FormData) (f : File)
    (r : FetchResponse) (result : string) :
  method request = "POST" ->
  pathname request = "/upload" ->
  req_formData request = Normal fd ->
  JS.FormData_get fd "file" = Some (FFile f) ->
  (size_in_MiB (file_size f) <= inject_Z 200)%Q ->
  net w [] (catbox_upload (FFile f)) = Normal r ->
  (200 <= resp_status r <= 299) ->
  resp_text r = Normal result ->
  JSString.startsWith result "https://" = true ->
  exists resp rounded url,
    Async.run (fetch URL_parse Number_toString request) w
      = (Normal resp, [(catbox_upload (FFile f), Normal r)])
    /\ body resp
       = Some (JObj [("success", JBool true);
                     ("url", JStr url);
                     ("filename", JStr (file_name f));
                     ("size_mb", JNum (Finite rounded))])
    /\ url = JSString.trim result
    /\ trimmed_of result url
    /\ rounded_to_two_decimals (size_in_MiB (file_size f)) rounded
    /\ JSString.startsWith url "https://" = true.
Proof.
  intros Hm Hp Hfd Hfile Hsmall Hnet Hstatus Htext Hurl.
  assert (Hok : resp_ok r = true).
  { unfold resp_ok. apply andb_true_iff.
    split; apply N.leb_le; apply Hstatus. }
  destruct (size_mb_rounded (file_size f)) as (rounded & Hmb & Hround).
  eexists. exists rounded, (JSString.trim result).
  split; [|split; [|split; [|split; [|split]]]].
  - unfold Async.run. rewrite (route_upload _ _ _ Hm Hp).
    apply (handleUpload_success _ _ w [] fd f r result); assumption.
  - cbn [body json_response]. now rewrite Hmb.
  - reflexivity.
  - apply trim_is_trimmed.
  - exact Hround.
  - apply startsWith_trim; [reflexivity | discriminate | exact Hurl].
Qed.

Lemma upload_success_envelope_witness :
  exists resp rounded url,
    Async.run (fetch Sample.URL_parse Sample.Number_toString
                 (Sample.post_form "/upload" [("file", FFile five_MiB_png)]))
      (Sample.world Sample.not_found url_line)
      = (Normal resp,
         [(catbox_upload (FFile five_MiB_png), Normal url_line)])
    /\ body resp
       = Some (JObj [("success", JBool true);
                     ("url", JStr url);
                     ("filename", JStr (file_name five_MiB_png));
                     ("size_mb", JNum (Finite rounded))])
    /\ url = JSString.trim
               ("https://files.catbox.moe/abc123.png" ++ line_end)
    /\ trimmed_of ("https://files.catbox.moe/abc123.png" ++ line_end) url
    /\ rounded_to_two_decimals (size_in_MiB (file_size five_MiB_png)) rounded
    /\ JSString.startsWith url "https://" = true.
Proof.
  apply (upload_success_envelope Sample.URL_parse Sample.Number_toString
           (Sample.world Sample.not_found url_line)
           (Sample.post_form "/upload" [("file", FFile five_MiB_png)])
           [("file", FFile five_MiB_png)] five_MiB_png url_line
           ("https://files.catbox.moe/abc123.png" ++ line_end));
    try reflexivity.
  - unfold size_in_MiB, Qle; cbn. lia.
  - cbn. lia.
Defined.

(** The line end the upstream sends after the URL is not part of the [url]
    of the envelope. *)
Example upload_trims_line_end :
  fst (Async.run (fetch Sample.URL_parse Sample.Number_toString
                    (Sample.post_form "/upload"
                       [("file", FFile five_MiB_png)]))
         (Sample.world Sample.not_found url_line))
  = Normal (json_response 200 corsHeaders
      (JObj [("success", JBool true);
             ("url", JStr "https://files.catbox.moe/abc123.png");
             ("filename", JStr "a.png");
             ("size_mb", JNum (Finite (500 # 100)))])).
Proof. vm_compute. reflexivity. Qed.

(** The end-to-end scenario of the specification: a 5 MiB [a.png], the
    upstream echoing a fixed URL. *)
Example upload_a_png :
  fst (Async.run (fetch Sample.URL_parse Sample.Number_toString
                    (Sample.post_form "/upload"
                       [("file", FFile five_MiB_png)]))
         (Sample.world Sample.not_found Sample.url_found))
  = Normal (json_response 200 corsHeaders
      (JObj [("success", JBool true);
             ("url", JStr "https://files.catbox.moe/abc123.png");
             ("filename", JStr "a.png");
             ("size_mb", JNum (Finite (500 # 100)))])).
Proof. vm_compute. reflexivity. Qed.

(** A [file] entry that is a string has neither [size] nor [name]: the size
    is [NaN], the size check lets it through, and the envelope carries
    [undefined] and [NaN] (both dropped or printed [null] by
    [JSON.stringify]). *)
Example upload_text_as_file :
  fst (Async.run (fetch Sample.URL_parse Sample.Number_toString text_as_file)
         (Sample.world Sample.not_found Sample.url_found))
  = Normal (json_response 200 corsHeaders
      (JObj [("success", JBool true);
             ("url", JStr "https://files.catbox.moe/abc123.png");
             ("filename", JUndefined);
             ("size_mb", JNum NaN)])).
Proof. vm_compute. reflexivity. Qed.

(* ================================================================== *)
(** ** The expiration gate of the temporary upload *)

Lemma handleUploadTemp_invalid_time (request : Request) (h : Headers)
    (w : World) (t : Trace) (fd : FormData) (time : FormDataEntryValue) :
  method request = "POST" ->
  req_formData request = Normal fd ->
  JS.FormData_get fd "time" = Some time ->
  JS.entry_truthy (Some time) = true ->
  JS.includes validTimes time = false ->
  handleUploadTemp request h w t
  = (Normal (if JS.entry_truthy (JS.FormData_get fd "file")
             then invalid_time h time else no_file_provided h), t).
Proof.
  intros Hm Hfd Htime Htruthy Hbad.
  unfold handleUploadTemp. enter_post Hm. unfold_async.
  rewrite Hfd. cbv beta iota zeta. rewrite Htime.
  unfold JS.entry_or. rewrite Htruthy, Hbad.
  destruct (JS.FormData_get fd "file") as [file|]; [|reflexivity].
  destruct (JS.entry_truthy (Some file)); reflexivity.
Qed.

(** C3 (amended).  A [POST /upload/temp] whose form supplies a non-empty
    [time] value outside [{1h, 12h, 24h, 72h}] is answered with status 400
    and the upstream is never called; when the form also supplies a file,
    the body lists the valid options and echoes the value. *)
Theorem invalid_time_is_400
    (URL_parse : string -> option URL) (Number_toString : Q -> string)
    (w : World) (request : Request) (fd : FormData)
    (time : FormDataEntryValue) :
  method request = "POST" ->
  pathname request = "/upload/temp" ->
  req_formData request = Normal fd ->
  JS.FormData_get fd "time" = Some time ->
  time <> FString "" ->
  JS.includes validTimes time = false ->
  exists resp,
    Async.run (fetch URL_parse Number_toString request) w = (Normal resp, [])
    /\ status resp = 400
    /\ (JS.entry_truthy (JS.FormData_get fd "file") = true ->
        body resp
        = Some (JObj [("error", JStr "Invalid time parameter");
                      ("valid_times",
                       JArr [JStr "1h"; JStr "12h"; JStr "24h"; JStr "72h"]);
                      ("provided", JS.entry_value time)])).
Proof.
  intros Hm Hp Hfd Htime Hne Hbad.
  assert (Htruthy : JS.entry_truthy (Some time) = true).
  { destruct time as [[|c s]|f]; try reflexivity. now elim Hne. }
  eexists. split; [|split].
  - unfold Async.run. rewrite (route_upload_temp _ _ _ Hm Hp).
    now apply (handleUploadTemp_invalid_time _ _ w [] fd time).
  - destruct (JS.entry_truthy (JS.FormData_get fd "file")); reflexivity.
  - intros ->. reflexivity.
Qed.

Lemma invalid_time_is_400_witness :
  exists resp,
    Async.run (fetch Sample.URL_parse Sample.Number_toString
                 (Sample.post_form "/upload/temp"
                    [("file", FFile small_png); ("time", FString "2h")]))
      (Sample.world Sample.not_found Sample.url_found) = (Normal resp, [])
    /\ status resp = 400
    /\ (JS.entry_truthy
          (JS.FormData_get
             [("file", FFile small_png); ("time", FString "2h")] "file")
        = true ->
        body resp
        = Some (JObj [("error", JStr "Invalid time parameter");
                      ("valid_times",
                       JArr [JStr "1h"; JStr "12h"; JStr "24h"; JStr "72h"]);
                      ("provided", JS.entry_value (FString "2h"))])).
Proof.
  apply (invalid_time_is_400 Sample.URL_parse Sample.Number_toString
           (Sample.world Sample.not_found Sample.url_found)
           (Sample.post_form "/upload/temp"
              [("file", FFile small_png); ("time", FString "2h")])
           [("file", FFile small_png); ("time", FString "2h")]
           (FString "2h"));
    try reflexivity.
  discriminate.
Defined.

(** C3 as first stated fails for the empty [time] value: it is outside the
    set, yet it is replaced by ["1h"], the upstream is called and the answer
    is 200. *)
Lemma empty_time_reaches_upstream :
  JS.FormData_get [("file", FFile small_png); ("time", FString "")] "time"
    = Some (FString "")
  /\ JS.includes validTimes (FString "") = false
  /\ exists resp outcome,
       Async.run (fetch Sample.URL_parse Sample.Number_toString
                    upload_with_empty_time)
         (Sample.world Sample.not_found Sample.url_found)
       = (Normal resp,
          [(mkCall litterbox_api "POST"
              (Some [("reqtype", FString "fileupload");
                     ("time", FString "1h");
                     ("fileToUpload", FFile small_png)]), outcome)])
       /\ status resp = 200
       /\ status resp <> 400.
Proof.
  split; [reflexivity|]. split; [reflexivity|].
  eexists. eexists. split; [vm_compute; reflexivity|].
  split; [reflexivity | discriminate].
Qed.

(* ================================================================== *)
(** ** The gates of the URL relay *)

Section UrlGates.

Variable URL_parse : string -> option URL.
Variable Number_toString : Q -> string.

Lemma handleUploadFromUrl_unparseable (request : Request) (h : Headers)
    (w : World) (t : Trace) (fields : list (string * JSValue)) (e : Error) :
  method request = "POST" ->
  req_json request = Normal (JObj fields) ->
  new_URL URL_parse Number_toString (JS.lookup fields "url") = Throw e ->
  handleUploadFromUrl URL_parse Number_toString request h w t
  = (Normal (json_response 400 h
       (JObj [("error",
               JStr (if JS.truthy (JS.lookup fields "url")
                     then "Invalid URL" else "No URL provided"))])), t).
Proof.
  intros Hm Hjson Hurl.
  unfold handleUploadFromUrl. enter_post Hm. unfold_async.
  rewrite Hjson. cbv beta iota zeta. cbn [JS.get].
  destruct (JS.truthy (JS.lookup fields "url")); cbn [negb]; cbv iota.
  - now rewrite Hurl.
  - reflexivity.
Qed.

End UrlGates.

(** C4.  A [POST /upload/url] whose JSON body is an object with a [url]
    value that [new URL] rejects is answered with status 400, and nothing is
    asked of the network: neither the source nor the upstream. *)
Theorem invalid_url_is_400
    (URL_parse : string -> option URL) (Number_toString : Q -> string)
    (w : World) (request : Request) (fields : list (string * JSValue))
    (e : Error) :
  method request = "POST" ->
  pathname request = "/upload/url" ->
  req_json request = Normal (JObj fields) ->
  new_URL URL_parse Number_toString (JS.lookup fields "url") = Throw e ->
  exists resp,
    Async.run (fetch URL_parse Number_toString request) w = (Normal resp, [])
    /\ status resp = 400
    /\ body resp
       = Some (JObj [("error",
                      JStr (if JS.truthy (JS.lookup fields "url")
                            then "Invalid URL" else "No URL provided"))]).
Proof.
  intros Hm Hp Hjson Hurl. eexists. split; [|split].
  - unfold Async.run. rewrite (route_upload_url _ _ _ Hm Hp).
    now apply (handleUploadFromUrl_unparseable _ _ _ _ w [] fields e).
  - reflexivity.
  - reflexivity.
Qed.

Lemma invalid_url_is_400_witness :
  exists resp,
    Async.run (fetch Sample.URL_parse Sample.Number_toString
                 (Sample.post_json "/upload/url"
                    (JObj [("url", JStr "not a url")])))
      (Sample.world Sample.not_found Sample.url_found) = (Normal resp, [])
    /\ status resp = 400
    /\ body resp
       = Some (JObj [("error",
                      JStr (if JS.truthy
                                 (JS.lookup [("url", JStr "not a url")] "url")
                            then "Invalid URL" else "No URL provided"))]).
Proof.
  apply (invalid_url_is_400 Sample.URL_parse Sample.Number_toString
           (Sample.world Sample.not_found Sample.url_found)
           (Sample.post_json "/upload/url"
              (JObj [("url", JStr "not a url")]))
           [("url", JStr "not a url")] (mkError "Invalid URL"));
    reflexivity.
Defined.

(** C8.  A [POST /upload/url] that names a parseable source whose [GET] is
    answered with a non-2xx status is answered with status 400 and a body
    holding that status; the download is the only network call, no upload is
    made. *)
Theorem failed_download_is_400
    (URL_parse : string -> option URL) (Number_toString : Q -> string)
    (w : World) (request : Request) (json : JSValue) (href : string)
    (u : URL) (r : FetchResponse) :
  pathname request = "/upload/url" ->
  names_source URL_parse Number_toString request json href u ->
  net w [] (mkCall href "GET" None) = Normal r ->
  (resp_status r < 200 \/ 299 < resp_status r) ->
  exists resp,
    Async.run (fetch URL_parse Number_toString request) w
      = (Normal resp, [(mkCall href "GET" None, Normal r)])
    /\ status resp = 400
    /\ body resp
       = Some (JObj [("error", JStr "Failed to download file");
                     ("status", JNum (JSNumber.of_N (resp_status r)))])
    /\ upload_calls [(mkCall href "GET" None, Normal r)] = [].
Proof.
  intros Hp Hsrc Hnet Hstatus.
  assert (Hok : resp_ok r = false).
  { unfold resp_ok. apply andb_false_iff.
    destruct Hstatus; [left | right]; apply N.leb_gt; assumption. }
  eexists. split.
  { unfold Async.run. rewrite (route_upload_url _ _ _ (proj1 Hsrc) Hp).
    now apply (handleUploadFromUrl_source_failed _ _ _ _ w [] json href u). }
  repeat split.
Qed.

Lemma failed_download_is_400_witness :
  exists resp,
    Async.run (fetch Sample.URL_parse Sample.Number_toString
                 (Sample.post_json "/upload/url" (JObj [("url", cat_url)])))
      (Sample.world Sample.not_found Sample.url_found)
      = (Normal resp,
         [(mkCall "https://example.com/pics/cat.png" "GET" None,
           Normal Sample.not_found)])
    /\ status resp = 400
    /\ body resp
       = Some (JObj [("error", JStr "Failed to download file");
                     ("status",
                      JNum (JSNumber.of_N (resp_status Sample.not_found)))])
    /\ upload_calls
         [(mkCall "https://example.com/pics/cat.png" "GET" None,
           Normal Sample.not_found)] = [].
Proof.
  apply (failed_download_is_400 Sample.URL_parse Sample.Number_toString
           (Sample.world Sample.not_found Sample.url_found)
           (Sample.post_json "/upload/url" (JObj [("url", cat_url)]))
           (JObj [("url", cat_url)]) "https://example.com/pics/cat.png"
           (mkURL "/pics/cat.png") Sample.not_found).
  - reflexivity.
  - repeat split.
  - reflexivity.
  - right. cbn. lia.
Defined.

(* ================================================================== *)
(** ** Unreadable request bodies *)

(** C10.  When the body of a [POST /upload] or [POST /upload/temp] does not
    parse as form data, or the body of a [POST /upload/url] is not valid
    JSON, the reader throws inside the handler's [try] and the answer is
    status 500 with [{success: false, error: 'Upload failed', message}],
    not a 400. *)
Theorem unreadable_body_is_500
    (URL_parse : string -> option URL) (Number_toString : Q -> string)
    (w : World) (request : Request) (e : Error) :
  method request = "POST" ->
  ((pathname request = "/upload" \/ pathname request = "/upload/temp")
   /\ req_formData request = Throw e)
  \/ (pathname request = "/upload/url" /\ req_json request = Throw e) ->
  exists resp,
    Async.run (fetch URL_parse Number_toString request) w = (Normal resp, [])
    /\ status resp = 500
    /\ status resp <> 400
    /\ body resp
       = Some (JObj [("success", JBool false);
                     ("error", JStr "Upload failed");
                     ("message", JStr (message e))]).
Proof.
  intros Hm Hcase. exists (upload_failed corsHeaders e).
  split; [|split; [reflexivity | split; [discriminate | reflexivity]]].
  unfold Async.run.
  destruct Hcase as [[[Hp | Hp] Hbody] | [Hp Hbody]].
  - rewrite (route_upload _ _ _ Hm Hp).
    unfold handleUpload. enter_post Hm. unfold_async. now rewrite Hbody.
  - rewrite (route_upload_temp _ _ _ Hm Hp).
    unfold handleUploadTemp. enter_post Hm. unfold_async. now rewrite Hbody.
  - rewrite (route_upload_url _ _ _ Hm Hp).
    unfold handleUploadFromUrl. enter_post Hm. unfold_async.
    now rewrite Hbody.
Qed.

Lemma unreadable_body_is_500_witness :
  (exists resp,
     Async.run (fetch Sample.URL_parse Sample.Number_toString
                  (mkRequest "POST" "/upload/temp"
                     (Throw not_multipart) (Throw not_json)))
       (Sample.world Sample.not_found Sample.url_found) = (Normal resp, [])
     /\ status resp = 500
     /\ status resp <> 400
     /\ body resp
        = Some (JObj [("success", JBool false);
                      ("error", JStr "Upload failed");
                      ("message", JStr (message not_multipart))]))
  /\ (exists resp,
     Async.run (fetch Sample.URL_parse Sample.Number_toString
                  (mkRequest "POST" "/upload/url"
                     (Throw not_multipart) (Throw not_json)))
       (Sample.world Sample.not_found Sample.url_found) = (Normal resp, [])
     /\ status resp = 500
     /\ status resp <> 400
     /\ body resp
        = Some (JObj [("success", JBool false);
                      ("error", JStr "Upload failed");
                      ("message", JStr (message not_json))])).
Proof.
  split.
  - apply unreadable_body_is_500; [reflexivity|].
    left. split; [right|]; reflexivity.
  - apply unreadable_body_is_500; [reflexivity|].
    right. split; reflexivity.
Defined.

(* ================================================================== *)
(** ** The URL relay forwards any expiration value *)

Lemma default_to_truthy (v d : JSValue) :
  JS.truthy v = true -> JS.default_to v d = v.
Proof. destruct v; cbn; intros H; try reflexivity; discriminate H. Qed.

(** C9.  The URL relay does not check [time] against [{1h, 12h, 24h, 72h}].
    For a [POST /upload/url] that names a parseable source whose download
    succeeds, with a truthy [temporary] and any string as [time]: the answer
    is never a 400, and when the size check passes the [time] string is sent
    as it is in the multipart form posted to the temporary upstream. *)
Theorem url_relay_forwards_any_time
    (URL_parse : string -> option URL) (Number_toString : Q -> string)
    (w : World) (request : Request) (json : JSValue) (href : string)
    (u : URL) (r : FetchResponse) (time : string) :
  pathname request = "/upload/url" ->
  names_source URL_parse Number_toString request json href u ->
  net w [] (mkCall href "GET" None) = Normal r ->
  resp_ok r = true ->
  JS.truthy (JS.get json "temporary") = true ->
  JS.get json "time" = JStr time ->
  exists resp trace,
    Async.run (fetch URL_parse Number_toString request) w
      = (Normal resp, trace)
    /\ status resp <> 400
    /\ (forall blob,
          resp_blob r = Normal blob ->
          (size_in_MiB (blob_size blob) <= inject_Z 200)%Q ->
          exists file outcome,
            trace = [(mkCall href "GET" None, Normal r);
                     (litterbox_relay time file, outcome)]
            /\ file_size file = blob_size blob).
Proof.
  intros Hp Hsrc Hnet Hok Htemp Htime.
  unfold Async.run. rewrite (route_upload_url _ _ _ (proj1 Hsrc) Hp).
  destruct Hsrc as (Hm & Hjson & Htruthy & Hstr & Hparse).
  destruct (truthy_get_object _ _ Htruthy) as (fields & ->).
  pose proof (default_to_truthy _ (JBool false) Htemp) as Hdef.
  unfold handleUploadFromUrl. enter_post Hm.
  unfold_async. unfold new_URL.
  run_with_hyps.
  unfold JS.default_to at 1. cbn [ToString app].
  destruct (resp_blob r) as [blob|e] eqn:Hblob.
  - cbv beta iota zeta. rewrite fileSizeMB_exact.
    destruct (JSNumber.gt (Finite (size_in_MiB (blob_size blob))) limit_MB)
      eqn:Hgt.
    + do 2 eexists. split; [reflexivity|]. split; [discriminate|].
      intros blob' [= <-] Hsmall.
      rewrite (over_limit_false _ Hsmall) in Hgt. discriminate Hgt.
    + split_all;
        (do 2 eexists; split; [reflexivity|]; split; [discriminate|];
         intros blob' [= <-] _; do 2 eexists; split; reflexivity).
  - do 2 eexists. split; [reflexivity|]. split; [discriminate|].
    intros blob [=].
Qed.

Lemma url_relay_forwards_any_time_witness :
  exists resp trace,
    Async.run (fetch Sample.URL_parse Sample.Number_toString
                 (Sample.post_json "/upload/url" relay_forever))
      (Sample.world (Sample.image 5000000) Sample.url_found)
      = (Normal resp, trace)
    /\ status resp <> 400
    /\ (forall blob,
          resp_blob (Sample.image 5000000) = Normal blob ->
          (size_in_MiB (blob_size blob) <= inject_Z 200)%Q ->
          exists file outcome,
            trace = [(mkCall "https://example.com/pics/cat.png" "GET" None,
                      Normal (Sample.image 5000000));
                     (litterbox_relay "forever" file, outcome)]
            /\ file_size file = blob_size blob).
Proof.
  apply (url_relay_forwards_any_time Sample.URL_parse Sample.Number_toString
           (Sample.world (Sample.image 5000000) Sample.url_found)
           (Sample.post_json "/upload/url" relay_forever) relay_forever
           "https://example.com/pics/cat.png" (mkURL "/pics/cat.png")
           (Sample.image 5000000) "forever").
  - reflexivity.
  - repeat split.
  - reflexivity.
  - reflexivity.
  - reflexivity.
  - reflexivity.
Defined.

(* ================================================================== *)
(** ** Upstream failures *)

(** After the case split of a handler: reads the response and the trace off
    the run, finds the call in the trace, and either refutes the case or
    shows the thrown message. *)
Ltac solve_rejected :=
  intros Hrun Hin Hpost Hbad;
  injection Hrun as <- <-;
  cbn [In app] in Hin;
  repeat match goal with
    | H : _ \/ _ |- _ => destruct H
    | H : False |- _ => destruct H
    | H : (_, _) = (_, _) |- _ => injection H as ? ?; subst
    | H : exists _, _ |- _ => destruct H as (? & ? & ?)
    | H : negb _ = true |- _ => apply negb_true_iff in H
    | H : negb _ = false |- _ => apply negb_false_iff in H
    end;
  try discriminate;
  try congruence;
  unfold thrown_message;
  match goal with
  | H : resp_ok ?r = _ |- context [resp_ok ?r] => rewrite H
  end; reflexivity.

Lemma handleUpload_rejected (request : Request) (h : Headers) (w : World)
    (resp : Response) (trace : Trace) (c : FetchCall) (r : FetchResponse) :
  handleUpload request h w [] = (Normal resp, trace) ->
  In (c, Normal r) trace ->
  is_upload_call c = true ->
  upload_rejected r ->
  resp = upload_failed h (mkError (thrown_message "catbox" r)).
Proof.
  unfold handleUpload, upload_rejected, status_error.
  unfold_async. split_all; solve_rejected.
Qed.

Lemma handleUploadTemp_rejected (request : Request) (h : Headers) (w : World)
    (resp : Response) (trace : Trace) (c : FetchCall) (r : FetchResponse) :
  handleUploadTemp request h w [] = (Normal resp, trace) ->
  In (c, Normal r) trace ->
  is_upload_call c = true ->
  upload_rejected r ->
  resp = upload_failed h (mkError (thrown_message "litterbox" r)).
Proof.
  unfold handleUploadTemp, upload_rejected, status_error.
  unfold_async. split_all; solve_rejected.
Qed.

Lemma handleUploadFromUrl_rejected
    (URL_parse : string -> option URL) (Number_toString : Q -> string)
    (request : Request) (h : Headers) (w : World)
    (resp : Response) (trace : Trace) (c : FetchCall) (r : FetchResponse) :
  handleUploadFromUrl URL_parse Number_toString request h w []
    = (Normal resp, trace) ->
  In (c, Normal r) trace ->
  is_upload_call c = true ->
  upload_rejected r ->
  resp = upload_failed h (mkError (thrown_message "catbox" r)).
Proof.
  unfold handleUploadFromUrl, upload_rejected, status_error.
  unfold_async. split_all; solve_rejected.
Qed.

Lemma non_2xx_not_ok (r : FetchResponse) : non_2xx r -> resp_ok r = false.
Proof.
  unfold non_2xx, resp_ok. intros H. apply andb_false_iff.
  destruct H; [left | right]; apply N.leb_gt; assumption.
Qed.

(** C5.  In any run of the worker, when an upstream upload call (made by
    [/upload], [/upload/temp] or [/upload/url]) is answered with a non-2xx
    status, or with a body that does not start with [https://], the answer
    is status 500 with [{success: false, error: 'Upload failed', message}],
    where [message] is the text of the error thrown for that answer:
    the status line for a non-2xx status, the invalid-response line
    otherwise. *)
Theorem upstream_failure_is_500
    (URL_parse : string -> option URL) (Number_toString : Q -> string)
    (w : World) (request : Request) (resp : Response) (trace : Trace)
    (c : FetchCall) (r : FetchResponse) :
  Async.run (fetch URL_parse Number_toString request) w
    = (Normal resp, trace) ->
  In (c, Normal r) trace ->
  is_upload_call c = true ->
  non_2xx r
  \/ (exists text, resp_text r = Normal text
                   /\ JSString.startsWith text "https://" = false) ->
  status resp = 500
  /\ body resp
     = Some (JObj [("success", JBool false);
                   ("error", JStr "Upload failed");
                   ("message",
                    JStr (thrown_message (service_named request) r))]).
Proof.
  intros Hrun Hin Hpost Hbad.
  assert (Hrej : upload_rejected r).
  { destruct Hbad as [H | H]; [left; now apply non_2xx_not_ok | now right]. }
  assert (Hresp : resp = upload_failed corsHeaders
                           (mkError (thrown_message (service_named request) r))).
  { unfold Async.run, fetch in Hrun. unfold service_named.
    destruct (String.eqb (method request) "OPTIONS");
      [injection Hrun as <- <-; destruct Hin|].
    destruct (String.eqb (pathname request) "/");
      [injection Hrun as <- <-; destruct Hin|].
    destruct (String.eqb (pathname request) "/health");
      [injection Hrun as <- <-; destruct Hin|].
    destruct (String.eqb (pathname request) "/upload") eqn:Hp.
    { apply String.eqb_eq in Hp. rewrite Hp.
      now apply (handleUpload_rejected request _ w _ trace c). }
    destruct (String.eqb (pathname request) "/upload/temp");
      [now apply (handleUploadTemp_rejected request _ w _ trace c)|].
    destruct (String.eqb (pathname request) "/upload/url");
      [now apply (handleUploadFromUrl_rejected URL_parse Number_toString
                    request _ w _ trace c)|].
    injection Hrun as <- <-; destruct Hin. }
  rewrite Hresp. split; reflexivity.
Qed.

Lemma upstream_failure_is_500_witness :
  (status (upload_failed corsHeaders
             (mkError "Upload failed with status 502")) = 500
   /\ body (upload_failed corsHeaders
              (mkError "Upload failed with status 502"))
      = Some (JObj [("success", JBool false);
                    ("error", JStr "Upload failed");
                    ("message",
                     JStr (thrown_message
                             (service_named
                                (Sample.post_form "/upload"
                                   [("file", FFile five_MiB_png)]))
                             Sample.bad_gateway))]))
  /\ (status (upload_failed corsHeaders
                (mkError "Invalid response from catbox")) = 500
      /\ body (upload_failed corsHeaders
                 (mkError "Invalid response from catbox"))
         = Some (JObj [("success", JBool false);
                       ("error", JStr "Upload failed");
                       ("message",
                        JStr (thrown_message
                                (service_named
                                   (Sample.post_json "/upload/url"
                                      relay_forever))
                                Sample.garbage))])).
Proof.
  split.
  - apply (upstream_failure_is_500 Sample.URL_parse Sample.Number_toString
             (Sample.world Sample.not_found Sample.bad_gateway)
             (Sample.post_form "/upload" [("file", FFile five_MiB_png)])
             _ [(catbox_upload (FFile five_MiB_png),
                 Normal Sample.bad_gateway)]
             (catbox_upload (FFile five_MiB_png)) Sample.bad_gateway).
    + vm_compute. reflexivity.
    + left. reflexivity.
    + reflexivity.
    + left. right. cbn. lia.
  - apply (upstream_failure_is_500 Sample.URL_parse Sample.Number_toString
             (Sample.world (Sample.image 5000000) Sample.garbage)
             (Sample.post_json "/upload/url" relay_forever)
             _ [(mkCall "https://example.com/pics/cat.png" "GET" None,
                 Normal (Sample.image 5000000));
                (litterbox_relay "forever"
                   (mkFile "cat.png" 5000000 "image/png"),
                 Normal Sample.garbage)]
             (litterbox_relay "forever"
                (mkFile "cat.png" 5000000 "image/png")) Sample.garbage).
    + vm_compute. reflexivity.
    + right. left. reflexivity.
    + reflexivity.
    + right. exists "oops!". split; reflexivity.
Defined.

(* ================================================================== *)
(** * Further properties of the router and the handlers *)

(** ** Paths and methods *)

Lemma eqb_false_of_neq (a b : string) : a <> b -> String.eqb a b = false.
Proof. intros H. now apply String.eqb_neq. Qed.

(** X1.  A request whose method is not [OPTIONS] and whose path is none of
    the five routes (matched exactly) is answered 404 [{error: 'Not
    found'}], whatever its body, without any network call. *)
Theorem unknown_path_is_404
    (URL_parse : string -> option URL) (Number_toString : Q -> string)
    (w : World) (request : Request) :
  method request <> "OPTIONS" ->
  ~ In (pathname request) routes ->
  Async.run (fetch URL_parse Number_toString request) w
  = (Normal (json_response 404 corsHeaders
               (JObj [("error", JStr "Not found")])), []).
Proof.
  intros Hm Hp. unfold Async.run, fetch.
  rewrite (eqb_false_of_neq _ _ Hm).
  cbn [routes In] in Hp.
  rewrite !eqb_false_of_neq by (intros E; apply Hp; rewrite E; tauto).
  reflexivity.
Qed.

Lemma unknown_path_is_404_witness :
  Async.run (fetch Sample.URL_parse Sample.Number_toString
               (Sample.post_form "/upload/" [("file", FFile small_png)]))
    (Sample.world Sample.not_found Sample.url_found)
  = (Normal (json_response 404 corsHeaders
               (JObj [("error", JStr "Not found")])), []).
Proof.
  apply unknown_path_is_404.
  - discriminate.
  - cbn. intros H. repeat (destruct H as [H | H]; [discriminate H|]).
    exact H.
Defined.

(** X2.  On the three upload paths every method other than [POST] (and
    [OPTIONS]) is answered 405 [{error: 'Method not allowed'}]; the body of
    the request is not read and the network is not asked. *)
Theorem other_methods_are_405
    (URL_parse : string -> option URL) (Number_toString : Q -> string)
    (w : World) (request : Request) :
  method request <> "OPTIONS" ->
  method request <> "POST" ->
  In (pathname request) upload_routes ->
  Async.run (fetch URL_parse Number_toString request) w
  = (Normal (json_response 405 corsHeaders
               (JObj [("error", JStr "Method not allowed")])), []).
Proof.
  intros Hopt Hpost Hp. unfold Async.run, fetch.
  rewrite (eqb_false_of_neq _ _ Hopt).
  cbn [upload_routes In] in Hp.
  destruct Hp as [Hp | [Hp | [Hp | []]]]; rewrite <- Hp; cbn [String.eqb Ascii.eqb Bool.eqb];
    cbv iota;
    unfold handleUpload, handleUploadTemp, handleUploadFromUrl;
    rewrite (eqb_false_of_neq _ _ Hpost); reflexivity.
Qed.

Lemma other_methods_are_405_witness :
  Async.run (fetch Sample.URL_parse Sample.Number_toString
               (mkRequest "GET" "/upload/temp"
                  (Normal [("file", FFile small_png)]) Sample.no_body))
    (Sample.world Sample.not_found Sample.url_found)
  = (Normal (json_response 405 corsHeaders
               (JObj [("error", JStr "Method not allowed")])), []).
Proof.
  apply other_methods_are_405.
  - discriminate.
  - discriminate.
  - cbn. tauto.
Defined.

(** X3.  The two information routes answer every method but [OPTIONS] with
    status 200 and ask nothing of the network; [/health] reports
    [status: "ok"], the service name and the clock's timestamp. *)
Theorem info_routes_answer_any_method
    (URL_parse : string -> option URL) (Number_toString : Q -> string)
    (w : World) (request : Request) :
  method request <> "OPTIONS" ->
  pathname request = "/" \/ pathname request = "/health" ->
  exists resp,
    Async.run (fetch URL_parse Number_toString request) w = (Normal resp, [])
    /\ status resp = 200
    /\ (pathname request = "/health" ->
        body resp = Some (JObj [("status", JStr "ok");
                                ("service", JStr "catbox-uploader-worker");
                                ("timestamp", JStr (clock_iso w))])).
Proof.
  intros Hm Hp. unfold Async.run, fetch.
  rewrite (eqb_false_of_neq _ _ Hm).
  destruct Hp as [Hp | Hp]; rewrite Hp; cbn [String.eqb Ascii.eqb Bool.eqb];
    cbv iota.
  - eexists. split; [reflexivity|]. split; [reflexivity|]. discriminate.
  - eexists. split; [reflexivity|]. split; reflexivity.
Qed.

Lemma info_routes_answer_any_method_witness :
  exists resp,
    Async.run (fetch Sample.URL_parse Sample.Number_toString
                 (mkRequest "DELETE" "/health" Sample.no_body Sample.no_body))
      offline = (Normal resp, [])
    /\ status resp = 200
    /\ (pathname (mkRequest "DELETE" "/health" Sample.no_body Sample.no_body)
        = "/health" ->
        body resp = Some (JObj [("status", JStr "ok");
                                ("service", JStr "catbox-uploader-worker");
                                ("timestamp", JStr (clock_iso offline))])).
Proof.
  apply info_routes_answer_any_method.
  - discriminate.
  - right. reflexivity.
Defined.

(** ** Missing and malformed inputs *)

(** X4.  A [POST] on [/upload] or [/upload/temp] whose form has no [file]
    entry, or an empty string for it, is answered 400 [{error: 'No file
    provided'}] without any network call; on [/upload/temp] this comes
    before the [time] value is looked at. *)
Theorem missing_file_is_400
    (URL_parse : string -> option URL) (Number_toString : Q -> string)
    (w : World) (request : Request) (fd : FormData) :
  method request = "POST" ->
  pathname request = "/upload" \/ pathname request = "/upload/temp" ->
  req_formData request = Normal fd ->
  JS.entry_truthy (JS.FormData_get fd "file") = false ->
  Async.run (fetch URL_parse Number_toString request) w
  = (Normal (json_response 400 corsHeaders
               (JObj [("error", JStr "No file provided")])), []).
Proof.
  intros Hm Hp Hfd Hfile. unfold Async.run.
  destruct Hp as [Hp | Hp].
  - rewrite (route_upload _ _ _ Hm Hp).
    unfold handleUpload. enter_post Hm. unfold_async. rewrite Hfd.
    cbv beta iota zeta.
    destruct (JS.FormData_get fd "file") as [file|]; [|reflexivity].
    now rewrite Hfile.
  - rewrite (route_upload_temp _ _ _ Hm Hp).
    unfold handleUploadTemp. enter_post Hm. unfold_async. rewrite Hfd.
    cbv beta iota zeta.
    destruct (JS.FormData_get fd "file") as [file|]; [|reflexivity].
    now rewrite Hfile.
Qed.

Lemma missing_file_is_400_witness :
  Async.run (fetch Sample.URL_parse Sample.Number_toString
               (Sample.post_form "/upload/temp"
                  [("file", FString ""); ("time", FString "never")]))
    (Sample.world Sample.not_found Sample.url_found)
  = (Normal (json_response 400 corsHeaders
               (JObj [("error", JStr "No file provided")])), []).
Proof.
  apply (missing_file_is_400 _ _ _ _
           [("file", FString ""); ("time", FString "never")]);
    try reflexivity.
  right. reflexivity.
Defined.

(** X5.  A [file] entry that is a non-empty string (a text field named
    [file]) passes both the presence check and the size check of
    [/upload], whatever its length: it has no [size], and [NaN > 200] is
    false.  The string is posted to catbox as [fileToUpload]. *)
Theorem text_field_passes_size_check
    (URL_parse : string -> option URL) (Number_toString : Q -> string)
    (w : World) (request : Request) (fd : FormData) (text : string) :
  method request = "POST" ->
  pathname request = "/upload" ->
  req_formData request = Normal fd ->
  JS.FormData_get fd "file" = Some (FString text) ->
  text <> "" ->
  exists resp,
    Async.run (fetch URL_parse Number_toString request) w
    = (Normal resp,
       [(catbox_upload (FString text),
         net w [] (catbox_upload (FString text)))])
    /\ status resp <> 413
    /\ status resp <> 400
    /\ (status resp = 200 ->
        exists url,
          body resp = Some (JObj [("success", JBool true);
                                  ("url", JStr url);
                                  ("filename", JUndefined);
                                  ("size_mb", JNum NaN)])).
Proof.
  intros Hm Hp Hfd Hfile Hne. unfold Async.run.
  rewrite (route_upload _ _ _ Hm Hp).
  assert (Htruthy : JS.entry_truthy (Some (FString text)) = true).
  { destruct text; [now elim Hne | reflexivity]. }
  unfold handleUpload, catbox_upload. enter_post Hm. unfold_async.
  rewrite Hfd. cbv beta iota zeta. rewrite Hfile, Htruthy.
  cbn [negb JS.entry_size JSNumber.div_pos JSNumber.gt JS.entry_name].
  cbv beta iota zeta. cbn [app].
  split_all;
    (eexists; split; [reflexivity|];
     split; [discriminate|]; split; [discriminate|];
     intros Hs; try discriminate Hs; eexists; reflexivity).
Qed.

Lemma text_field_passes_size_check_witness :
  exists resp,
    Async.run (fetch Sample.URL_parse Sample.Number_toString text_as_file)
      (Sample.world Sample.not_found Sample.url_found)
    = (Normal resp,
       [(catbox_upload (FString "hello"),
         net (Sample.world Sample.not_found Sample.url_found) []
           (catbox_upload (FString "hello")))])
    /\ status resp <> 413
    /\ status resp <> 400
    /\ (status resp = 200 ->
        exists url,
          body resp = Some (JObj [("success", JBool true);
                                  ("url", JStr url);
                                  ("filename", JUndefined);
                                  ("size_mb", JNum NaN)])).
Proof.
  apply (text_field_passes_size_check _ _ _ _
           [("file", FString "hello")] "hello");
    try reflexivity.
  discriminate.
Defined.

(** X6.  [POST /upload/url] with a JSON body that has no truthy [url]: a
    body that is not an object (a number, a string, a boolean, an array),
    an object without [url], or one whose [url] is [null], [""], [0] or
    [false], is answered 400 [{error: 'No URL provided'}]; the body [null]
    cannot be destructured and is answered 500.  Neither asks anything of
    the network. *)
Theorem url_relay_without_url
    (URL_parse : string -> option URL) (Number_toString : Q -> string)
    (w : World) (request : Request) (json : JSValue) :
  method request = "POST" ->
  pathname request = "/upload/url" ->
  req_json request = Normal json ->
  JS.truthy (JS.get json "url") = false ->
  exists resp,
    Async.run (fetch URL_parse Number_toString request) w = (Normal resp, [])
    /\ (json = JNull ->
        status resp = 500
        /\ JS.get (match body resp with Some v => v | None => JNull end)
             "error" = JStr "Upload failed")
    /\ (json <> JNull -> json <> JUndefined ->
        resp = json_response 400 corsHeaders
                 (JObj [("error", JStr "No URL provided")])).
Proof.
  intros Hm Hp Hjson Hurl. unfold Async.run.
  rewrite (route_upload_url _ _ _ Hm Hp).
  unfold handleUploadFromUrl. enter_post Hm. unfold_async.
  rewrite Hjson. cbv beta iota zeta.
  destruct json; cbv beta iota zeta; try rewrite Hurl;
    cbn [negb JS.get JS.truthy]; cbv iota;
    (eexists; split; [reflexivity|]; split;
     [intros E; try discriminate E; split; reflexivity
     |intros N1 N2; try reflexivity; try (now elim N1); now elim N2]).
Qed.

Lemma url_relay_without_url_witness :
  exists resp,
    Async.run (fetch Sample.URL_parse Sample.Number_toString
                 (Sample.post_json "/upload/url"
                    (JArr [JStr "https://example.com/a.png"])))
      (Sample.world Sample.not_found Sample.url_found) = (Normal resp, [])
    /\ (JArr [JStr "https://example.com/a.png"] = JNull ->
        status resp = 500
        /\ JS.get (match body resp with Some v => v | None => JNull end)
             "error" = JStr "Upload failed")
    /\ (JArr [JStr "https://example.com/a.png"] <> JNull ->
        JArr [JStr "https://example.com/a.png"] <> JUndefined ->
        resp = json_response 400 corsHeaders
                 (JObj [("error", JStr "No URL provided")])).
Proof.
  apply url_relay_without_url; reflexivity.
Defined.

(** ** The size check, seen from both sides *)

Lemma within_limit_bytes (bytes : N) :
  (size_in_MiB bytes <= inject_Z 200)%Q <-> bytes <= 209715200.
Proof.
  unfold size_in_MiB, Qle, Qdiv, Qmult, Qinv; cbn. lia.
Qed.

Lemma handleUpload_within_limit (request : Request) (h : Headers)
    (w : World) (fd : FormData) (f : File) :
  method request = "POST" ->
  req_formData request = Normal fd ->
  JS.FormData_get fd "file" = Some (FFile f) ->
  (size_in_MiB (file_size f) <= inject_Z 200)%Q ->
  exists resp trace,
    handleUpload request h w [] = (Normal resp, trace)
    /\ status resp <> 413.
Proof.
  intros Hm Hfd Hfile Hsmall.
  pose proof (over_limit_false _ Hsmall) as Hgt.
  unfold handleUpload. enter_post Hm. unfold_async.
  run_with_hyps.
  split_all; (do 2 eexists; split; [reflexivity | discriminate]).
Qed.

Lemma handleUploadTemp_within_limit (request : Request) (h : Headers)
    (w : World) (fd : FormData) (f : File) :
  method request = "POST" ->
  req_formData request = Normal fd ->
  JS.FormData_get fd "file" = Some (FFile f) ->
  (size_in_MiB (file_size f) <= inject_Z 200)%Q ->
  exists resp trace,
    handleUploadTemp request h w [] = (Normal resp, trace)
    /\ status resp <> 413.
Proof.
  intros Hm Hfd Hfile Hsmall.
  pose proof (over_limit_false _ Hsmall) as Hgt.
  unfold handleUploadTemp. enter_post Hm. unfold_async.
  rewrite Hfd. cbv beta iota zeta. rewrite Hfile.
  cbn [JS.entry_truthy negb JS.entry_size]. cbv iota.
  rewrite fileSizeMB_exact, Hgt.
  split_all; (do 2 eexists; split; [reflexivity | discriminate]).
Qed.

Lemma handleUploadFromUrl_within_limit
    (URL_parse : string -> option URL) (Number_toString : Q -> string)
    (request : Request) (h : Headers) (w : World) (json : JSValue)
    (href : string) (u : URL) (r : FetchResponse) (blob : Blob) :
  names_source URL_parse Number_toString request json href u ->
  downloads w [] href r blob ->
  (size_in_MiB (blob_size blob) <= inject_Z 200)%Q ->
  exists resp trace,
    handleUploadFromUrl URL_parse Number_toString request h w []
      = (Normal resp, trace)
    /\ status resp <> 413.
Proof.
  intros (Hm & Hjson & Htruthy & Hstr & Hparse) (Hnet & Hok & Hblob) Hsmall.
  destruct (truthy_get_object _ _ Htruthy) as (fields & ->).
  pose proof (over_limit_false _ Hsmall) as Hgt.
  unfold handleUploadFromUrl. enter_post Hm.
  unfold_async. unfold new_URL.
  run_with_hyps.
  split_all; (do 2 eexists; split; [reflexivity | discriminate]).
Qed.

(** X7.  For a [POST] that reaches the size check of its handler with a
    file of [bytes] bytes, the answer is 413 exactly when [bytes] exceeds
    209,715,200: a file of exactly 200 MiB is accepted, one byte more is
    refused. *)
Theorem size_check_boundary
    (URL_parse : string -> option URL) (Number_toString : Q -> string)
    (w : World) (request : Request) (bytes : N) (checked : Trace) :
  method request = "POST" ->
  reaches_size_check URL_parse Number_toString w request bytes checked ->
  exists resp trace,
    Async.run (fetch URL_parse Number_toString request) w
      = (Normal resp, trace)
    /\ (status resp = 413 <-> 209715200 < bytes).
Proof.
  intros Hm Hreach. unfold Async.run.
  destruct (N.ltb_spec 209715200 bytes) as [Hbig | Hsmall].
  - pose proof (proj2 (over_limit_bytes bytes) Hbig) as Hq.
    exists (file_too_large corsHeaders (Finite (size_in_MiB bytes))).
    destruct Hreach as [fd f Hp Hfd Hf | fd f Hp Hfd Hf Ht
                       | body href u r blob Hp Hsrc Hdl].
    + rewrite (route_upload _ _ _ Hm Hp).
      rewrite (handleUpload_oversize _ _ w [] fd f Hm Hfd Hf Hq).
      eexists. split; [reflexivity|]. now split.
    + rewrite (route_upload_temp _ _ _ Hm Hp).
      rewrite (handleUploadTemp_oversize _ _ w [] fd f Hm Hfd Hf Ht Hq).
      eexists. split; [reflexivity|]. now split.
    + rewrite (route_upload_url _ _ _ Hm Hp).
      rewrite (handleUploadFromUrl_oversize _ _ _ _ w [] body href u r blob
                 Hsrc Hdl Hq).
      eexists. split; [reflexivity|]. now split.
  - pose proof (proj2 (within_limit_bytes bytes) Hsmall) as Hq.
    assert (Hsplit : forall resp : Response,
               status resp <> 413 -> (status resp = 413 <-> 209715200 < bytes)).
    { intros resp Hne. split; [intros E; now elim Hne | lia]. }
    destruct Hreach as [fd f Hp Hfd Hf | fd f Hp Hfd Hf Ht
                       | body href u r blob Hp Hsrc Hdl].
    + rewrite (route_upload _ _ _ Hm Hp).
      destruct (handleUpload_within_limit _ corsHeaders w fd f Hm Hfd Hf Hq)
        as (resp & trace & -> & Hne). eauto.
    + rewrite (route_upload_temp _ _ _ Hm Hp).
      destruct (handleUploadTemp_within_limit _ corsHeaders w fd f
                  Hm Hfd Hf Hq) as (resp & trace & -> & Hne). eauto.
    + rewrite (route_upload_url _ _ _ Hm Hp).
      destruct (handleUploadFromUrl_within_limit _ _ _ corsHeaders w body
                  href u r blob Hsrc Hdl Hq) as (resp & trace & -> & Hne).
      eauto.
Qed.

Lemma size_check_boundary_witness :
  exists resp trace,
    Async.run (fetch Sample.URL_parse Sample.Number_toString
                 (Sample.post_form "/upload"
                    [("file", FFile exactly_200_MiB)]))
      (Sample.world Sample.not_found Sample.url_found)
      = (Normal resp, trace)
    /\ (status resp = 413 <-> 209715200 < 209715200).
Proof.
  apply (size_check_boundary Sample.URL_parse Sample.Number_toString
           _ _ 209715200 []).
  - reflexivity.
  - now apply (size_check_upload _ _ _ _
                 [("file", FFile exactly_200_MiB)] exactly_200_MiB).
Defined.

(** ** Successful temporary and relayed uploads *)

Lemma ok_of_2xx (r : FetchResponse) :
  200 <= resp_status r <= 299 -> resp_ok r = true.
Proof.
  intros H. unfold resp_ok. apply andb_true_iff.
  split; apply N.leb_le; apply H.
Qed.

(** X8.  A [POST /upload/temp] with a file of at most 200 MiB and a [time]
    of the set ([1h] when the form has none, or an empty one) posts the
    marker, that [time] and the file to litterbox; when the upstream
    answers 2xx with a body starting with [https://], the envelope is the
    one of [/upload] extended with [expiration] (the time used) and
    [temporary: true]. *)
Theorem temp_upload_success_envelope
    (URL_parse : string -> option URL) (Number_toString : Q -> string)
    (w : World) (request : Request) (fd : FormData) (f : File)
    (time : string) (r : FetchResponse) (result : string) :
  method request = "POST" ->
  pathname request = "/upload/temp" ->
  req_formData request = Normal fd ->
  JS.FormData_get fd "file" = Some (FFile f) ->
  JS.entry_or (JS.FormData_get fd "time") (FString "1h") = FString time ->
  In time validTimes ->
  (size_in_MiB (file_size f) <= inject_Z 200)%Q ->
  net w [] (litterbox_upload (FString time) (FFile f)) = Normal r ->
  (200 <= resp_status r <= 299) ->
  resp_text r = Normal result ->
  JSString.startsWith result "https://" = true ->
  exists resp rounded,
    Async.run (fetch URL_parse Number_toString request) w
      = (Normal resp,
         [(litterbox_upload (FString time) (FFile f), Normal r)])
    /\ status resp = 200
    /\ body resp
       = Some (JObj [("success", JBool true);
                     ("url", JStr (JSString.trim result));
                     ("filename", JStr (file_name f));
                     ("size_mb", JNum (Finite rounded));
                     ("expiration", JStr time);
                     ("temporary", JBool true)])
    /\ rounded_to_two_decimals (size_in_MiB (file_size f)) rounded.
Proof.
  intros Hm Hp Hfd Hfile Htime Hvalid Hsmall Hnet Hstatus Htext Hurl.
  pose proof (ok_of_2xx _ Hstatus) as Hok.
  pose proof (over_limit_false _ Hsmall) as Hgt.
  assert (Hinc : JS.includes validTimes (FString time) = true).
  { cbn [JS.includes]. apply existsb_exists. exists time.
    split; [exact Hvalid | apply String.eqb_refl]. }
  destruct (size_mb_rounded (file_size f)) as (rounded & Hmb & Hround).
  eexists. exists rounded. split; [|split; [|split]]; [| | |exact Hround].
  - unfold Async.run. rewrite (route_upload_temp _ _ _ Hm Hp).
    unfold litterbox_upload in *.
    unfold handleUploadTemp. enter_post Hm. unfold_async.
    rewrite Hfd. cbv beta iota zeta. rewrite Hfile, Htime, Hinc.
    cbn [JS.entry_truthy negb JS.entry_size]. cbv iota.
    rewrite fileSizeMB_exact, Hgt. cbv iota. cbn [app].
    rewrite Hnet. cbv beta iota zeta. rewrite Hok. cbn [negb]. cbv iota.
    rewrite Htext. cbv beta iota zeta. rewrite Hurl. reflexivity.
  - reflexivity.
  - cbn [body json_response JS.entry_name JS.entry_value]. now rewrite Hmb.
Qed.

Lemma temp_upload_success_envelope_witness :
  exists resp rounded,
    Async.run (fetch Sample.URL_parse Sample.Number_toString
                 (Sample.post_form "/upload/temp"
                    [("file", FFile five_MiB_png)]))
      (Sample.world Sample.not_found Sample.url_found)
      = (Normal resp,
         [(litterbox_upload (FString "1h") (FFile five_MiB_png),
           Normal Sample.url_found)])
    /\ status resp = 200
    /\ body resp
       = Some (JObj [("success", JBool true);
                     ("url",
                      JStr (JSString.trim
                              "https://files.catbox.moe/abc123.png"));
                     ("filename", JStr (file_name five_MiB_png));
                     ("size_mb", JNum (Finite rounded));
                     ("expiration", JStr "1h");
                     ("temporary", JBool true)])
    /\ rounded_to_two_decimals (size_in_MiB (file_size five_MiB_png)) rounded.
Proof.
  apply (temp_upload_success_envelope
           Sample.URL_parse Sample.Number_toString
           (Sample.world Sample.not_found Sample.url_found)
           (Sample.post_form "/upload/temp" [("file", FFile five_MiB_png)])
           [("file", FFile five_MiB_png)] five_MiB_png "1h"
           Sample.url_found "https://files.catbox.moe/abc123.png");
    try reflexivity.
  - cbn. tauto.
  - unfold size_in_MiB, Qle; cbn. lia.
  - cbn. lia.
Defined.

(** X9.  A [POST /upload/url] that names a parseable source, downloads it
    and finds at most 200 MiB wraps the bytes as a file named after the last
    segment of the URL's path ([download] when that is empty) and posts it;
    the file is constructed with the download's content type
    ([application/octet-stream] when missing), which the [File] constructor
    turns to lower case, or empties when it holds a character outside
    U+0020..U+007E.  The file goes to litterbox with the [time] value
    (["1h"] by default) when [temporary] is truthy, to catbox without any
    [time] otherwise.  On a 2xx answer starting with [https://] the
    envelope echoes the source URL, and carries [expiration] and
    [temporary] only in the temporary case. *)
Theorem url_relay_success_envelope
    (URL_parse : string -> option URL) (Number_toString : Q -> string)
    (w : World) (request : Request) (json : JSValue) (href : string)
    (u : URL) (r : FetchResponse) (blob : Blob)
    (temporary : bool) (timev : JSValue) (time : string)
    (up : FetchResponse) (result : string) :
  pathname request = "/upload/url" ->
  names_source URL_parse Number_toString request json href u ->
  downloads w [] href r blob ->
  (size_in_MiB (blob_size blob) <= inject_Z 200)%Q ->
  JS.truthy (JS.default_to (JS.get json "temporary") (JBool false))
    = temporary ->
  JS.default_to (JS.get json "time") (JStr "1h") = timev ->
  (temporary = true -> ToString Number_toString timev = Normal time) ->
  net w [(mkCall href "GET" None, Normal r)]
    (relay_call temporary time
       (new_File blob (relay_filename u) (relay_content_type r)))
    = Normal up ->
  (200 <= resp_status up <= 299) ->
  resp_text up = Normal result ->
  JSString.startsWith result "https://" = true ->
  exists resp rounded,
    Async.run (fetch URL_parse Number_toString request) w
      = (Normal resp,
         [(mkCall href "GET" None, Normal r);
          (relay_call temporary time
             (new_File blob (relay_filename u) (relay_content_type r)),
           Normal up)])
    /\ status resp = 200
    /\ body resp
       = Some (JObj ([("success", JBool true);
                      ("url", JStr (JSString.trim result));
                      ("original_url", JS.get json "url");
                      ("filename", JStr (relay_filename u));
                      ("size_mb", JNum (Finite rounded))]
                     ++ (if temporary
                         then [("expiration", timev);
                               ("temporary", JBool true)]
                         else []))%list)
    /\ rounded_to_two_decimals (size_in_MiB (blob_size blob)) rounded
    /\ normal_type
         (file_type (new_File blob (relay_filename u) (relay_content_type r)))
       = true.
Proof.
  intros Hp Hsrc (Hnet & Hok & Hblob) Hsmall Htemp Htimev Htime Hup
         Hstatus Htext Hurl.
  pose proof (ok_of_2xx _ Hstatus) as Hupok.
  pose proof (over_limit_false _ Hsmall) as Hgt.
  destruct (size_mb_rounded (blob_size blob)) as (rounded & Hmb & Hround).
  assert (Hrun :
    Async.run (fetch URL_parse Number_toString request) w
    = (Normal (json_response 200 corsHeaders
         (JObj ([("success", JBool true);
                 ("url", JStr (JSString.trim result));
                 ("original_url", JS.get json "url");
                 ("filename", JStr (relay_filename u));
                 ("size_mb", size_mb (Finite (size_in_MiB (blob_size blob))))]
                ++ (if temporary
                    then [("expiration", timev); ("temporary", JBool true)]
                    else []))%list)),
       [(mkCall href "GET" None, Normal r);
        (relay_call temporary time
           (new_File blob (relay_filename u) (relay_content_type r)),
         Normal up)])).
  { unfold Async.run. rewrite (route_upload_url _ _ _ (proj1 Hsrc) Hp).
    destruct Hsrc as (Hm & Hjson & Htruthy & Hstr & Hparse).
    destruct (truthy_get_object _ _ Htruthy) as (fields & ->).
    unfold relay_call, relay_filename, relay_content_type in *.
    unfold handleUploadFromUrl. enter_post Hm.
    unfold_async. unfold new_URL.
    rewrite Hjson. cbv beta iota zeta. rewrite Htruthy. cbn [negb].
    cbv iota. rewrite Hstr, Hparse. cbv beta iota zeta. cbn [app].
    rewrite Hnet. cbv beta iota zeta. rewrite Hok. cbn [negb]. cbv iota.
    rewrite Hblob. cbv beta iota zeta.
    rewrite fileSizeMB_exact, Hgt. cbv iota.
    rewrite Htemp, Htimev.
    destruct temporary.
    - rewrite (Htime eq_refl). cbv beta iota zeta. cbn [app] in *.
      rewrite Hup. cbv beta iota zeta. rewrite Hupok. cbn [negb]. cbv iota.
      rewrite Htext. cbv beta iota zeta. rewrite Hurl. reflexivity.
    - cbv beta iota zeta. cbn [app] in *.
      rewrite Hup. cbv beta iota zeta. rewrite Hupok. cbn [negb]. cbv iota.
      rewrite Htext. cbv beta iota zeta. rewrite Hurl. reflexivity. }
  eexists. exists rounded. split; [exact Hrun|].
  split; [reflexivity|].
  split; [|split; [exact Hround | apply normalize_type_normal]].
  cbn [body json_response app]. rewrite Hmb. reflexivity.
Qed.

Lemma url_relay_success_envelope_witness :
  exists resp rounded,
    Async.run (fetch Sample.URL_parse Sample.Number_toString
                 (Sample.post_json "/upload/url" relay_temporary))
      (Sample.world mixed_case_image Sample.url_found)
      = (Normal resp,
         [(mkCall "https://example.com/pics/cat.png" "GET" None,
           Normal mixed_case_image);
          (relay_call true "1h"
             (new_File (mkBlob 5000000)
                (relay_filename (mkURL "/pics/cat.png"))
                (relay_content_type mixed_case_image)),
           Normal Sample.url_found)])
    /\ status resp = 200
    /\ body resp
       = Some (JObj ([("success", JBool true);
                      ("url",
                       JStr (JSString.trim
                               "https://files.catbox.moe/abc123.png"));
                      ("original_url", JS.get relay_temporary "url");
                      ("filename",
                       JStr (relay_filename (mkURL "/pics/cat.png")));
                      ("size_mb", JNum (Finite rounded))]
                     ++ (if true
                         then [("expiration", JStr "1h");
                               ("temporary", JBool true)]
                         else []))%list)
    /\ rounded_to_two_decimals (size_in_MiB (blob_size (mkBlob 5000000)))
         rounded
    /\ normal_type
         (file_type (new_File (mkBlob 5000000)
                       (relay_filename (mkURL "/pics/cat.png"))
                       (relay_content_type mixed_case_image)))
       = true.
Proof.
  apply (url_relay_success_envelope
           Sample.URL_parse Sample.Number_toString
           (Sample.world mixed_case_image Sample.url_found)
           (Sample.post_json "/upload/url" relay_temporary) relay_temporary
           "https://example.com/pics/cat.png" (mkURL "/pics/cat.png")
           mixed_case_image (mkBlob 5000000) true (JStr "1h") "1h"
           Sample.url_found "https://files.catbox.moe/abc123.png");
    try reflexivity.
  - repeat split.
  - repeat split.
  - unfold size_in_MiB, Qle; cbn. lia.
  - cbn. lia.
Defined.

(** The relayed file carries the content type in lower case. *)
Example relay_lowercases_type :
  snd (Async.run (fetch Sample.URL_parse Sample.Number_toString
                    (Sample.post_json "/upload/url" relay_permanent))
         (Sample.world mixed_case_image Sample.url_found))
  = [(mkCall "https://example.com/pics/cat.png" "GET" None,
      Normal mixed_case_image);
     (relay_call false "" (mkFile "cat.png" 5000000 "image/png"),
      Normal Sample.url_found)].
Proof. vm_compute. reflexivity. Qed.

(* ================================================================== *)
(** ** Invariants of every run *)

(** Case analysis on the route the worker takes. *)
Lemma fetch_routes
    (URL_parse : string -> option URL) (Number_toString : Q -> string)
    (request : Request) (P : Async Response -> Prop) :
  P (Async.ret (mkResponse 200 corsHeaders None)) ->
  P (Async.try_catch (handleRoot corsHeaders) internal_server_error) ->
  P (Async.try_catch (handleHealth corsHeaders) internal_server_error) ->
  (pathname request = "/upload" -> P (handleUpload request corsHeaders)) ->
  (pathname request = "/upload/temp" ->
   P (handleUploadTemp request corsHeaders)) ->
  (pathname request = "/upload/url" ->
   P (handleUploadFromUrl URL_parse Number_toString request corsHeaders)) ->
  P (Async.ret (json_response 404 corsHeaders
                  (JObj [("error", JStr "Not found")]))) ->
  P (fetch URL_parse Number_toString request).
Proof.
  intros Hopt Hroot Hhealth Hup Htemp Hurl H404. unfold fetch.
  destruct (String.eqb (method request) "OPTIONS"); [exact Hopt|].
  destruct (String.eqb (pathname request) "/"); [exact Hroot|].
  destruct (String.eqb (pathname request) "/health"); [exact Hhealth|].
  destruct (String.eqb (pathname request) "/upload") eqn:E1;
    [apply Hup; now apply String.eqb_eq|].
  destruct (String.eqb (pathname request) "/upload/temp") eqn:E2;
    [apply Htemp; now apply String.eqb_eq|].
  destruct (String.eqb (pathname request) "/upload/url") eqn:E3;
    [apply Hurl; now apply String.eqb_eq|].
  exact H404.
Qed.

(** The case split of the URL relay: bodies that are no objects have no
    [url] and stop at the first gate. *)
Ltac split_relay :=
  repeat (cbv beta iota zeta; cbn [JS.get];
          change (JS.truthy JUndefined) with false;
          cbn [negb];
          split_first).

Ltac solve_status :=
  do 2 eexists; split; [reflexivity|]; cbn; tauto.

(** X10.  Whatever the request and the network, the status of the answer is
    one of 200, 400, 404, 405, 413 and 500: upstream and source statuses are
    never passed on as the status of the answer. *)
Theorem status_is_one_of_six
    (URL_parse : string -> option URL) (Number_toString : Q -> string)
    (w : World) (request : Request) :
  exists resp trace,
    Async.run (fetch URL_parse Number_toString request) w
      = (Normal resp, trace)
    /\ In (status resp) [200; 400; 404; 405; 413; 500].
Proof.
  unfold Async.run. revert w.
  apply (fetch_routes URL_parse Number_toString request status_in_range);
    try intros _; intros w.
  - solve_status.
  - solve_status.
  - solve_status.
  - unfold handleUpload. unfold_async. split_all; solve_status.
  - unfold handleUploadTemp. unfold_async. split_all; solve_status.
  - unfold handleUploadFromUrl. unfold_async. split_relay; solve_status.
  - solve_status.
Qed.

Ltac solve_bounded :=
  let H := fresh in
  intros H; injection H as <- <-;
  cbn [app upload_calls map fst filter is_upload_call call_method
       String.eqb Ascii.eqb Bool.eqb length];
  cbn; lia.

(** X11.  One request leads to at most one upstream upload call.  The only
    other call the worker ever makes is the download of the source, at most
    once and on [/upload/url] only. *)
Theorem at_most_one_upload_call
    (URL_parse : string -> option URL) (Number_toString : Q -> string)
    (w : World) (request : Request) (res : Completion Response)
    (trace : Trace) :
  Async.run (fetch URL_parse Number_toString request) w = (res, trace) ->
  (length (upload_calls trace) <= 1)%nat
  /\ (length trace <= 2)%nat
  /\ (pathname request <> "/upload/url" ->
      length trace = length (upload_calls trace)).
Proof.
  unfold Async.run. intros Hrun.
  assert (H : exists extra,
             calls_bounded extra (fetch URL_parse Number_toString request)
             /\ (extra <= 1)%nat
             /\ (pathname request <> "/upload/url" -> extra = 0%nat)).
  { apply (fetch_routes URL_parse Number_toString request
             (fun m => exists extra, calls_bounded extra m
                        /\ (extra <= 1)%nat
                        /\ (pathname request <> "/upload/url"
                            -> extra = 0%nat))).
    - exists 0%nat. split; [|split; [lia | reflexivity]].
      intros w' res' t'. unfold_async. solve_bounded.
    - exists 0%nat. split; [|split; [lia | reflexivity]].
      intros w' res' t'. unfold handleRoot. unfold_async. solve_bounded.
    - exists 0%nat. split; [|split; [lia | reflexivity]].
      intros w' res' t'. unfold handleHealth. unfold_async. solve_bounded.
    - intros _. exists 0%nat. split; [|split; [lia | reflexivity]].
      intros w' res' t'. unfold handleUpload. unfold_async.
      split_all; solve_bounded.
    - intros _. exists 0%nat. split; [|split; [lia | reflexivity]].
      intros w' res' t'. unfold handleUploadTemp. unfold_async.
      split_all; solve_bounded.
    - intros Hp. exists 1%nat. split; [|split; [lia | now intros N]].
      intros w' res' t'. unfold handleUploadFromUrl. unfold_async.
      split_relay; solve_bounded.
    - exists 0%nat. split; [|split; [lia | reflexivity]].
      intros w' res' t'. unfold_async. solve_bounded. }
  destruct H as (extra & Hb & Hle & Hzero).
  destruct (Hb w res trace Hrun) as (H1 & H2).
  split; [exact H1|]. split; [lia|].
  intros Hp. rewrite (Hzero Hp) in H2.
  assert (length (upload_calls trace) <= length trace)%nat.
  { unfold upload_calls.
    pose proof (filter_length_le is_upload_call (map fst trace)) as Hf.
    now rewrite length_map in Hf. }
  lia.
Qed.

Lemma at_most_one_upload_call_witness :
  (length (upload_calls two_call_trace) <= 1)%nat
  /\ (length two_call_trace <= 2)%nat
  /\ (pathname (Sample.post_json "/upload/url" relay_forever)
        <> "/upload/url" ->
      length two_call_trace = length (upload_calls two_call_trace)).
Proof.
  apply (at_most_one_upload_call Sample.URL_parse Sample.Number_toString
           (Sample.world (Sample.image 5000000) Sample.garbage)
           (Sample.post_json "/upload/url" relay_forever)
           (Normal (upload_failed corsHeaders
                      (mkError "Invalid response from catbox")))).
  vm_compute. reflexivity.
Defined.

(** ** What is sent upstream *)

Lemma includes_valid (e : FormDataEntryValue) :
  JS.includes validTimes e = true ->
  exists t, e = FString t /\ In t validTimes.
Proof.
  destruct e as [s|f]; cbn [JS.includes]; [|discriminate].
  intros H. apply existsb_exists in H as (t & Hin & Heq).
  apply String.eqb_eq in Heq. subst. eauto.
Qed.

(** Reads a finished run, and finds the call in its trace. *)
Ltac read_run :=
  let Hrun := fresh "Hrun" in
  let Hin := fresh "Hin" in
  let Hup := fresh "Hup" in
  intros Hrun Hin Hup;
  injection Hrun as <- <-;
  cbn [In app] in Hin;
  repeat match goal with
    | H : _ \/ _ |- _ => destruct H
    | H : False |- _ => destruct H
    | H : (_, _) = (_, _) |- _ => injection H as ? ?; subst
    | H : negb _ = true |- _ => apply negb_true_iff in H
    | H : negb _ = false |- _ => apply negb_false_iff in H
    end;
  try discriminate.

Ltac solve_shape :=
  read_run;
  (split; [reflexivity |
     first [ left; split; [reflexivity | eexists; reflexivity]
           | right; split; [reflexivity | do 2 eexists; reflexivity] ]]).

Lemma handleUploadTemp_time_sent (request : Request) (h : Headers)
    (w : World) (res : Completion Response) (trace : Trace)
    (c : FetchCall) (o : Completion FetchResponse) :
  handleUploadTemp request h w [] = (res, trace) ->
  In (c, o) trace -> is_upload_call c = true ->
  exists t, call_time c = Some (FString t) /\ In t validTimes.
Proof.
  unfold handleUploadTemp. unfold_async. split_all; read_run.
  all: match goal with
       | H : JS.includes validTimes _ = true |- _ =>
           destruct (includes_valid _ H) as (t & Ht & Hv)
       end.
  all: exists t; split; [cbn; now rewrite Ht | exact Hv].
Qed.

(** X12.  Every upload call the worker makes is a [POST] to one of the two
    upstream endpoints, and its form holds exactly the request-type marker,
    the file and, for litterbox only, a [time]: catbox is never sent a
    [time], and no other field of the inbound request is forwarded.  On
    [/upload/temp] the [time] sent is one of [1h], [12h], [24h], [72h]. *)
Theorem upload_calls_are_well_formed
    (URL_parse : string -> option URL) (Number_toString : Q -> string)
    (w : World) (request : Request) (res : Completion Response)
    (trace : Trace) (c : FetchCall) (o : Completion FetchResponse) :
  Async.run (fetch URL_parse Number_toString request) w = (res, trace) ->
  In (c, o) trace ->
  is_upload_call c = true ->
  upload_call_shape c
  /\ (pathname request = "/upload/temp" ->
      exists t, call_time c = Some (FString t) /\ In t validTimes).
Proof.
  unfold Async.run. intros Hrun Hin Hup.
  assert (H : sends_shaped_uploads (fetch URL_parse Number_toString request)
              /\ (pathname request = "/upload/temp" ->
                  fetch URL_parse Number_toString request
                  = handleUploadTemp request corsHeaders
                  \/ forall w', snd (fetch URL_parse Number_toString request
                                       w' []) = [])).
  { apply (fetch_routes URL_parse Number_toString request
             (fun m => sends_shaped_uploads m
                       /\ (pathname request = "/upload/temp" ->
                           m = handleUploadTemp request corsHeaders
                           \/ forall w', snd (m w' []) = []))).
    - split; [|intros _; right; reflexivity].
      intros w' res' t' c' o'. unfold_async. read_run.
    - split; [|intros _; right; reflexivity].
      intros w' res' t' c' o'. unfold handleRoot. unfold_async. read_run.
    - split; [|intros _; right; reflexivity].
      intros w' res' t' c' o'. unfold handleHealth. unfold_async. read_run.
    - intros Hp. split; [|rewrite Hp; discriminate].
      intros w' res' t' c' o'. unfold handleUpload. unfold_async.
      split_all; solve_shape.
    - intros Hp. split; [|intros _; left; reflexivity].
      intros w' res' t' c' o'. unfold handleUploadTemp. unfold_async.
      split_all; solve_shape.
    - intros Hp. split; [|rewrite Hp; discriminate].
      intros w' res' t' c' o'. unfold handleUploadFromUrl. unfold_async.
      split_relay; solve_shape.
    - split; [|intros _; right; reflexivity].
      intros w' res' t' c' o'. unfold_async. read_run. }
  destruct H as (Hshape & Htemp).
  split; [exact (Hshape w res trace c o Hrun Hin Hup)|].
  intros Hp. destruct (Htemp Hp) as [E | E].
  - rewrite E in Hrun.
    exact (handleUploadTemp_time_sent _ _ w res trace c o Hrun Hin Hup).
  - specialize (E w). rewrite Hrun in E. cbn in E. subst. destruct Hin.
Qed.

Lemma upload_calls_are_well_formed_witness :
  upload_call_shape
    (litterbox_upload (FString "24h") (FFile small_png))
  /\ (pathname (Sample.post_form "/upload/temp"
                  [("file", FFile small_png); ("time", FString "24h");
                   ("note", FString "not forwarded")])
      = "/upload/temp" ->
      exists t,
        call_time (litterbox_upload (FString "24h") (FFile small_png))
        = Some (FString t)
        /\ In t validTimes).
Proof.
  apply (upload_calls_are_well_formed
           Sample.URL_parse Sample.Number_toString
           (Sample.world Sample.not_found Sample.bad_gateway)
           (Sample.post_form "/upload/temp"
              [("file", FFile small_png); ("time", FString "24h");
               ("note", FString "not forwarded")])
           (Normal (upload_failed corsHeaders
                      (mkError "Upload failed with status 502")))
           [(litterbox_upload (FString "24h") (FFile small_png),
             Normal Sample.bad_gateway)]
           _ (Normal Sample.bad_gateway)).
  - vm_compute. reflexivity.
  - left. reflexivity.
  - reflexivity.
Defined.

(** ** The file the URL relay makes *)

Lemma no_slash_app (a b : string) :
  no_slash (a ++ b) = no_slash a && no_slash b.
Proof.
  induction a as [|c a IH]; cbn; [reflexivity|].
  rewrite IH. now rewrite andb_assoc.
Qed.

Lemma split_pop_aux_no_slash (s acc : string) :
  no_slash acc = true -> no_slash (JSString.split_pop_aux s acc) = true.
Proof.
  revert acc. induction s as [|c s IH]; intros acc Hacc; cbn.
  - exact Hacc.
  - destruct (Ascii.eqb c "/"%char) eqn:Hc.
    + now apply IH.
    + apply IH. rewrite no_slash_app, Hacc. cbn. now rewrite Hc.
Qed.

Lemma append_nil_r (s : string) : (s ++ "")%string = s.
Proof. induction s; cbn; congruence. Qed.

Lemma append_assoc (a b c : string) :
  ((a ++ b) ++ c)%string = (a ++ b ++ c)%string.
Proof. induction a; cbn; congruence. Qed.

Lemma split_pop_aux_suffix (s acc : string) :
  exists front,
    (acc ++ s = front ++ JSString.split_pop_aux s acc)%string
    /\ ends_path front.
Proof.
  revert acc. induction s as [|c s IH]; intros acc; cbn.
  - exists "". split; [now rewrite append_nil_r | now left].
  - destruct (Ascii.eqb c "/"%char) eqn:Hc.
    + apply Ascii.eqb_eq in Hc. subst c.
      destruct (IH "") as (front & Hfront & Hends). cbn in Hfront.
      exists (acc ++ String "/" front)%string. split.
      * rewrite append_assoc. cbn. now rewrite <- Hfront.
      * right. destruct Hends as [-> | (before & ->)].
        -- now exists acc.
        -- exists (acc ++ String "/" before)%string.
           now rewrite append_assoc.
    + destruct (IH (acc ++ String c "")%string) as (front & Hfront & Hends).
      exists front. split; [|exact Hends].
      rewrite <- Hfront, append_assoc. reflexivity.
Qed.

(** The last segment of a path holds no slash. *)
Lemma split_slash_pop_no_slash (s : string) :
  no_slash (JSString.split_slash_pop s) = true.
Proof. now apply split_pop_aux_no_slash. Qed.

Lemma relay_filename_ok (u : URL) :
  relay_filename u <> "" /\ no_slash (relay_filename u) = true.
Proof.
  unfold relay_filename.
  destruct (JSString.split_slash_pop (url_pathname u)) eqn:E; cbn [JSString.is_empty].
  - split; [discriminate | reflexivity].
  - split; [discriminate|]. rewrite <- E. apply split_slash_pop_no_slash.
Qed.

Ltac nonempty_string :=
  first [ discriminate
        | let E := fresh in
          intros E; rewrite E in *; discriminate ].

Ltac solve_relay_file :=
  read_run;
  (eexists; split; [reflexivity|]; cbn [file_name file_type new_File];
   split; [nonempty_string|];
   split; [first [reflexivity | apply split_slash_pop_no_slash]
          | apply normalize_type_normal]).

Lemma handleUploadFromUrl_file
    (URL_parse : string -> option URL) (Number_toString : Q -> string)
    (request : Request) (h : Headers) (w : World)
    (res : Completion Response) (trace : Trace)
    (c : FetchCall) (o : Completion FetchResponse) :
  handleUploadFromUrl URL_parse Number_toString request h w [] = (res, trace) ->
  In (c, o) trace -> is_upload_call c = true ->
  exists f, call_file c = Some (FFile f)
            /\ file_name f <> ""
            /\ no_slash (file_name f) = true
            /\ normal_type (file_type f) = true.
Proof.
  unfold handleUploadFromUrl. unfold_async. split_relay; solve_relay_file.
Qed.

(** X13.  Whatever source URL and download it is given, the file the URL
    relay posts upstream has a non-empty name without any slash, and a type
    made of characters of U+0020..U+007E without upper-case letters; the
    type is empty when the download's content type holds any other
    character. *)
Theorem relayed_file_is_named
    (URL_parse : string -> option URL) (Number_toString : Q -> string)
    (w : World) (request : Request) (res : Completion Response)
    (trace : Trace) (c : FetchCall) (o : Completion FetchResponse) :
  pathname request = "/upload/url" ->
  Async.run (fetch URL_parse Number_toString request) w = (res, trace) ->
  In (c, o) trace ->
  is_upload_call c = true ->
  exists f, call_file c = Some (FFile f)
            /\ file_name f <> ""
            /\ no_slash (file_name f) = true
            /\ normal_type (file_type f) = true.
Proof.
  unfold Async.run. intros Hp Hrun Hin Hup.
  unfold fetch in Hrun. rewrite Hp in Hrun.
  destruct (String.eqb (method request) "OPTIONS").
  - injection Hrun as <- <-. destruct Hin.
  - cbn [String.eqb Ascii.eqb Bool.eqb] in Hrun. cbv iota in Hrun.
    exact (handleUploadFromUrl_file _ _ _ _ w res trace c o Hrun Hin Hup).
Qed.

Lemma relayed_file_is_named_witness :
  exists f,
    call_file (relay_call false "" (mkFile "download" 9 ""))
    = Some (FFile f)
    /\ file_name f <> ""
    /\ no_slash (file_name f) = true
    /\ normal_type (file_type f) = true.
Proof.
  apply (relayed_file_is_named Sample.URL_parse Sample.Number_toString
           (Sample.world tabbed_type Sample.url_found)
           (Sample.post_json "/upload/url" (JObj [("url", slash_url)]))
           (Normal (json_response 200 corsHeaders
              (JObj [("success", JBool true);
                     ("url", JStr "https://files.catbox.moe/abc123.png");
                     ("original_url", slash_url);
                     ("filename", JStr "download");
                     ("size_mb", JNum (Finite (0 # 100)))])))
           [(mkCall "https://example.com/pics/" "GET" None,
             Normal tabbed_type);
            (relay_call false "" (mkFile "download" 9 ""),
             Normal Sample.url_found)]
           _ (Normal Sample.url_found)).
  - reflexivity.
  - vm_compute. reflexivity.
  - right. left. reflexivity.
  - reflexivity.
Defined.

(** X14.  The name the URL relay gives the file is what follows the last
    slash of the URL's path, and [download] when nothing follows it (the
    path is empty or ends with a slash). *)
Theorem relay_filename_is_last_segment (u : URL) :
  exists front last,
    url_pathname u = (front ++ last)%string
    /\ ends_path front
    /\ no_slash last = true
    /\ relay_filename u = (if JSString.is_empty last then "download" else last).
Proof.
  destruct (split_pop_aux_suffix (url_pathname u) "") as (front & Hf & He).
  exists front, (JSString.split_slash_pop (url_pathname u)).
  split; [exact Hf|]. split; [exact He|].
  split; [apply split_slash_pop_no_slash | reflexivity].
Qed.

(** ** Success and failure of the host operations *)

Ltac last_entry :=
  cbn [In app];
  match goal with
  | |- _ \/ False => left; reflexivity
  | |- _ \/ _ \/ False => right; left; reflexivity
  end.

Ltac solve_backed :=
  let Hrun := fresh "Hrun" in
  let Hs := fresh "Hs" in
  intros Hrun Hs;
  injection Hrun as <- <-;
  try discriminate Hs;
  repeat match goal with
    | H : negb _ = true |- _ => apply negb_true_iff in H
    | H : negb _ = false |- _ => apply negb_false_iff in H
    end;
  (split; [reflexivity|];
   do 4 eexists; split; [last_entry|];
   split; [reflexivity|];
   split; [eassumption|];
   split; [eassumption|];
   split; [assumption|];
   split; [reflexivity|];
   split; [reflexivity | apply trim_is_trimmed]).

(** X15.  The worker reports [success: true] only when an upload call of
    the run was answered with a 2xx status and a body starting with
    [https://]; the [url] it reports is that body trimmed (the body is the
    [url] between runs of white space only, and the [url] has white space
    at neither end), and the status of such an answer is 200. *)
Theorem success_is_backed_by_upstream
    (URL_parse : string -> option URL) (Number_toString : Q -> string)
    (w : World) (request : Request) (resp : Response) (trace : Trace) :
  Async.run (fetch URL_parse Number_toString request) w
    = (Normal resp, trace) ->
  body_field resp "success" = JBool true ->
  status resp = 200
  /\ exists c r text url,
       In (c, Normal r) trace
       /\ is_upload_call c = true
       /\ resp_ok r = true
       /\ resp_text r = Normal text
       /\ JSString.startsWith text "https://" = true
       /\ body_field resp "url" = JStr url
       /\ url = JSString.trim text
       /\ trimmed_of text url.
Proof.
  unfold Async.run. revert w resp trace.
  apply (fetch_routes URL_parse Number_toString request success_is_backed);
    try intros _; intros w resp trace.
  - unfold_async. solve_backed.
  - unfold handleRoot. unfold_async. solve_backed.
  - unfold handleHealth. unfold_async. solve_backed.
  - unfold handleUpload. unfold_async. split_all; solve_backed.
  - unfold handleUploadTemp. unfold_async. split_all; solve_backed.
  - unfold handleUploadFromUrl. unfold_async. split_relay; solve_backed.
  - unfold_async. solve_backed.
Qed.

Lemma success_is_backed_by_upstream_witness :
  status (json_response 200 corsHeaders
            (JObj [("success", JBool true);
                   ("url", JStr "https://files.catbox.moe/abc123.png");
                   ("filename", JStr "a.png");
                   ("size_mb", JNum (Finite (500 # 100)))])) = 200
  /\ exists c r text url,
       In (c, Normal r)
         [(catbox_upload (FFile five_MiB_png), Normal url_line)]
       /\ is_upload_call c = true
       /\ resp_ok r = true
       /\ resp_text r = Normal text
       /\ JSString.startsWith text "https://" = true
       /\ body_field
            (json_response 200 corsHeaders
               (JObj [("success", JBool true);
                      ("url", JStr "https://files.catbox.moe/abc123.png");
                      ("filename", JStr "a.png");
                      ("size_mb", JNum (Finite (500 # 100)))])) "url"
          = JStr url
       /\ url = JSString.trim text
       /\ trimmed_of text url.
Proof.
  apply (success_is_backed_by_upstream
           Sample.URL_parse Sample.Number_toString
           (Sample.world Sample.not_found url_line)
           (Sample.post_form "/upload" [("file", FFile five_MiB_png)])).
  - vm_compute. reflexivity.
  - reflexivity.
Defined.

Ltac solve_reported :=
  let Hrun := fresh "Hrun" in
  let Hfail := fresh "Hfail" in
  intros Hrun Hfail;
  injection Hrun as <- <-;
  destruct Hfail as [c Hin | c r Hin Hup Hok Hread | c r Hin Hup Hok Hread];
  cbn [In app] in Hin;
  repeat match goal with
    | H : _ \/ _ |- _ => destruct H
    | H : False |- _ => destruct H
    | H : (_, _) = (_, _) |- _ => injection H as ? ?; subst
    | H : negb _ = true |- _ => apply negb_true_iff in H
    | H : negb _ = false |- _ => apply negb_false_iff in H
    end;
  try discriminate;
  try congruence.

(** X16.  When a host operation fails during a run (a [fetch] rejects, be it
    the download or the upload; [blob()] of a 2xx download or [text()] of a
    2xx upstream answer throws), the answer is status 500 with
    [{success: false, error: 'Upload failed', message}], the message being
    that of the failure. *)
Theorem host_failures_are_500
    (URL_parse : string -> option URL) (Number_toString : Q -> string)
    (w : World) (request : Request) (resp : Response) (trace : Trace)
    (e : Error) :
  Async.run (fetch URL_parse Number_toString request) w
    = (Normal resp, trace) ->
  host_failure trace e ->
  status resp = 500
  /\ body resp = Some (JObj [("success", JBool false);
                             ("error", JStr "Upload failed");
                             ("message", JStr (message e))]).
Proof.
  unfold Async.run. intros Hrun Hfail.
  assert (H : failures_are_reported corsHeaders
                (fetch URL_parse Number_toString request)).
  { apply (fetch_routes URL_parse Number_toString request
             (failures_are_reported corsHeaders));
      try intros _; intros w' resp' trace' e'.
    - unfold_async. solve_reported.
    - unfold handleRoot. unfold_async. solve_reported.
    - unfold handleHealth. unfold_async. solve_reported.
    - unfold handleUpload. unfold_async. split_all; solve_reported.
    - unfold handleUploadTemp. unfold_async. split_all; solve_reported.
    - unfold handleUploadFromUrl. unfold_async.
      split_relay; solve_reported.
    - unfold_async. solve_reported. }
  rewrite (H w resp trace e Hrun Hfail). split; reflexivity.
Qed.

Lemma host_failures_are_500_witness :
  status (upload_failed corsHeaders (mkError "Network connection lost."))
    = 500
  /\ body (upload_failed corsHeaders (mkError "Network connection lost."))
     = Some (JObj [("success", JBool false);
                   ("error", JStr "Upload failed");
                   ("message",
                    JStr (message (mkError "Network connection lost.")))]).
Proof.
  apply (host_failures_are_500 Sample.URL_parse Sample.Number_toString
           offline (Sample.post_json "/upload/url" relay_permanent)
           _ [(mkCall "https://example.com/pics/cat.png" "GET" None,
               Throw (mkError "Network connection lost."))]).
  - vm_compute. reflexivity.
  - apply (fetch_rejected _ _
             (mkCall "https://example.com/pics/cat.png" "GET" None)).
    left. reflexivity.
Defined.

(** ** The reported size *)

Lemma size_mb_hundredths (bytes : N) :
  size_mb (Finite (size_in_MiB bytes))
  = JNum (Finite (Z.of_N (JSNumber.round_hundredths (size_in_MiB bytes))
                  # 100)).
Proof.
  unfold size_mb. rewrite parseFloat_toFixed2; [reflexivity|].
  unfold size_in_MiB, Qdiv, Qmult, Qinv; cbn. lia.
Qed.

Lemma round_hundredths_size (bytes : N) :
  Z.of_N (JSNumber.round_hundredths (size_in_MiB bytes))
  = ((200 * Z.of_N bytes + 1048576) / 2097152)%Z.
Proof.
  unfold JSNumber.round_hundredths, size_in_MiB, Qdiv, Qmult, Qinv.
  cbn [Qnum Qden inject_Z].
  rewrite Z2N.id.
  - change (Z.pos (1 * 1048576)) with 1048576%Z. f_equal; lia.
  - change (Z.pos (1 * 1048576)) with 1048576%Z. apply Z.div_pos; lia.
Qed.

(** X17.  The [size_mb] of the envelope is a whole number of hundredths
    that grows with the size of the file: it is 0 for the empty file, and
    exactly 200 for the largest accepted one. *)
Theorem size_mb_is_monotone (small large : N) :
  small <= large ->
  large <= 209715200 ->
  exists ks kl : Z,
    size_mb (Finite (size_in_MiB small)) = JNum (Finite (ks # 100))
    /\ size_mb (Finite (size_in_MiB large)) = JNum (Finite (kl # 100))
    /\ (0 <= ks <= kl)%Z /\ (kl <= 20000)%Z
    /\ (small = 0 -> ks = 0%Z)
    /\ (large = 209715200 -> kl = 20000%Z).
Proof.
  intros Hle Hmax.
  exists (Z.of_N (JSNumber.round_hundredths (size_in_MiB small))),
         (Z.of_N (JSNumber.round_hundredths (size_in_MiB large))).
  split; [apply size_mb_hundredths|]. split; [apply size_mb_hundredths|].
  rewrite !round_hundredths_size.
  repeat split.
  - apply Z.div_pos; lia.
  - apply Z.div_le_mono; lia.
  - assert ((200 * Z.of_N large + 1048576) / 2097152 < 20001)%Z
      by (apply Z.div_lt_upper_bound; lia).
    lia.
  - intros ->. reflexivity.
  - intros ->. reflexivity.
Qed.

Lemma size_mb_is_monotone_witness :
  exists ks kl : Z,
    size_mb (Finite (size_in_MiB 5000000)) = JNum (Finite (ks # 100))
    /\ size_mb (Finite (size_in_MiB 5242880)) = JNum (Finite (kl # 100))
    /\ (0 <= ks <= kl)%Z /\ (kl <= 20000)%Z
    /\ (5000000 = 0 -> ks = 0%Z)
    /\ (5242880 = 209715200 -> kl = 20000%Z).
Proof.
  apply size_mb_is_monotone; lia.
Defined.
